(** * backend/app.py: pitch analysis, text to speech and forced alignment

    A shallow embedding of the three POST handlers of [backend/app.py]
    and of the helpers they call.  Calls into libraries that live
    outside the repository (werkzeug, parselmouth, the OpenAI client,
    ffmpeg, soundfile, torch and torchaudio) are answered by an
    environment record [Env]; the handlers themselves, their
    [try]/[except]/[finally] blocks, their local variables and the
    temporary files they create and remove are modelled as written. *)

From Stdlib Require Import Ascii String QArith.
From stdpp Require Import gmap strings list fin_maps.

Set Warnings "-clear-no-such-hyp".

Local Open Scope Z_scope.
Local Open Scope string_scope.

(** ** Characters and strings

    A transcript is a Python [str]; characters are modelled by [ascii],
    read as the code points U+0000 to U+00FF. *)

Module Py.

Definition code (c : ascii) : N := N_of_ascii c.

(** [str.lower] on one code point below U+0100: the upper-case letters
    are A-Z and U+00C0..U+00DE without the multiplication sign U+00D7,
    each 32 below its lower-case form. *)
Definition is_upper (c : ascii) : bool :=
  let n := code c in
  ((65 <=? n) && (n <=? 90)
   || (192 <=? n) && (n <=? 222) && negb (n =? 215))%N.

Definition lower_char (c : ascii) : ascii :=
  if is_upper c then ascii_of_N (code c + 32) else c.

Definition lower (s : list ascii) : list ascii := lower_char <$> s.

(** The characters [str.split()] treats as separators (those with
    [str.isspace]) below U+0100. *)
Definition isspace (c : ascii) : bool :=
  let n := code c in
  ((9 <=? n) && (n <=? 13) || (28 <=? n) && (n <=? 32)
   || (n =? 133) || (n =? 160))%N.

(** [str.split()] without argument: maximal runs of non-space
    characters, in order; [cur] holds the current run, reversed. *)
Fixpoint split_from (cur : list ascii) (s : list ascii) : list (list ascii) :=
  match s with
  | [] => match cur with [] => [] | _ => [rev cur] end
  | c :: s' =>
      if isspace c
      then match cur with
           | [] => split_from [] s'
           | _ => rev cur :: split_from [] s'
           end
      else split_from (c :: cur) s'
  end.

Definition split (s : list ascii) : list (list ascii) := split_from [] s.

End Py.

(** ** Transcript tokenisation (line 180 of [forced_align_waveform])

    [DICT_NO_STAR] comes from [torchaudio.pipelines.MMS_FA]; it is not
    part of the repository and is a parameter of every definition that
    uses it. *)

Section Tokens.

Variable DICT_NO_STAR : gmap ascii Z.

(** [[DICT_NO_STAR[char] for char in word if char in DICT_NO_STAR]] *)
Definition word_tokens (word : list ascii) : list Z :=
  char ← word;
  match DICT_NO_STAR !! char with
  | Some i => [i]
  | None => []
  end.

(** [[DICT_NO_STAR[char] for word in transcript.lower().split()
      for char in word if char in DICT_NO_STAR]] *)
Definition tokens_of (transcript : list ascii) : list Z :=
  word ← Py.split (Py.lower transcript);
  word_tokens word.

(** The token sequence in the words of the specification: the
    vocabulary indices of the characters as they stand, characters
    outside the vocabulary dropped, nothing else done. *)
Definition tokens_as_specified (transcript : list ascii) : list Z :=
  omap (λ char, DICT_NO_STAR !! char) transcript.

End Tokens.

(** The table [MMS_FA.get_dict(star=None)] of torchaudio, used where a
    concrete vocabulary is needed. *)
Definition MMS_FA_dict : gmap ascii Z :=
  list_to_map
    [("-"%char, 0); ("a"%char, 1); ("i"%char, 2); ("e"%char, 3);
     ("n"%char, 4); ("o"%char, 5); ("u"%char, 6); ("t"%char, 7);
     ("s"%char, 8); ("r"%char, 9); ("m"%char, 10); ("k"%char, 11);
     ("l"%char, 12); ("d"%char, 13); ("g"%char, 14); ("h"%char, 15);
     ("y"%char, 16); ("b"%char, 17); ("p"%char, 18); ("w"%char, 19);
     ("c"%char, 20); ("v"%char, 21); ("j"%char, 22); ("z"%char, 23);
     ("f"%char, 24); ("'"%char, 25); ("q"%char, 26); ("x"%char, 27)].

Definition chars (s : string) : list ascii := list_ascii_of_string s.


(** ** Values the handlers exchange with the outside *)

(** A Python [float]. *)
Inductive float :=
  | Finite (q : Q)
  | PosInf
  | NegInf
  | NaN.

(** [f > 0] *)
Definition float_gt0 (f : float) : bool :=
  match f with
  | Finite q => negb (Qle_bool q 0)
  | PosInf => true
  | NegInf | NaN => false
  end.

(** [f <= 0] *)
Definition float_le0 (f : float) : bool :=
  match f with
  | Finite q => Qle_bool q 0
  | NegInf => true
  | PosInf | NaN => false
  end.

(** A value decoded from a JSON body. *)
#[warnings="-register-all"]
Inductive JSON :=
  | JNull
  | JBool (b : bool)
  | JNumber (q : Q)
  | JString (s : string)
  | JArray (l : list JSON)
  | JObject (l : list (string * JSON)).

(** Python truth value of [data.get(key)]; a missing key gives [None]. *)
Definition truthy (v : option JSON) : bool :=
  match v with
  | None | Some JNull => false
  | Some (JBool b) => b
  | Some (JNumber q) => negb (Qeq_bool q 0)
  | Some (JString s) => negb (String.eqb s "")
  | Some (JArray l) => match l with [] => false | _ => true end
  | Some (JObject l) => match l with [] => false | _ => true end
  end.

(** An uploaded file; [content_length] is what [tell()] answers after
    [seek(0, os.SEEK_END)]. *)
Record FileStorage := { content_length : Z }.

(** Flask's [request]: [request.files], [request.form] and the JSON
    object [request.get_json()] of a [{text, api_key}] body. *)
Record Request := {
  files : gmap string FileStorage;
  form : gmap string string;
  get_json : gmap string JSON
}.

(** An exception: its class and [str(e)]. *)
Record Exn := mkExn { exn_class : string; exn_msg : string }.

(** A span of [F.merge_tokens] and an entry of the alignment list. *)
Record TokenSpan := {
  span_token : Z; span_start : Z; span_end : Z; span_score : float
}.

Record AlignEntry := {
  token : string; start_frame : Z; end_frame : Z; score : float
}.

Abbreviation Path := positive.

Inductive Body :=
  | JsonError (msg : string)                    (* jsonify({'error': msg}) *)
  | JsonPitch (result : list (float * float))   (* [{'time', 'frequency'}] *)
  | JsonAlignment (alignment : list AlignEntry)
  | Attachment (file : Path) (download_name mimetype : string).

Record Response := mkResponse { status : Z; body : Body }.

(** ** Calls that leave the repository *)

Inductive Op :=
  | OpSave            (* FileStorage.save *)
  | OpParselmouth     (* parselmouth.Sound(..).to_pitch() and its arrays *)
  | OpOpenAI          (* OpenAI(api_key=..), no request is sent *)
  | OpSpeechCreate    (* client.audio.speech.create *)
  | OpStreamToFile    (* response.stream_to_file *)
  | OpSendFile        (* flask.send_file *)
  | OpFfmpeg          (* subprocess.run(["ffmpeg", ..], check=True) *)
  | OpInspect         (* sf.SoundFile in inspect_audio_file *)
  | OpSfRead          (* sf.read *)
  | OpResample        (* T.Resample *)
  | OpModel           (* model(waveform) *)
  | OpForcedAlign     (* F.forced_align *)
  | OpMergeTokens.    (* F.merge_tokens *)

Inductive Event :=
  | Call (o : Op)
  | Failed (o : Op) (e : Exn)
  | TempCreated (p : Path)
  | Removed (p : Path).

(** What the outside answers during one request.  [None] and [inr]
    stand for a call that returns, [Some e] and [inl e] for one that
    raises [e].  soundfile opens the converted file twice, in
    [inspect_audio_file] and in [sf.read]; the file does not change in
    between, so one answer [env_sf_open] serves both. *)
Record Env := {
  env_save : option Exn;
  env_parselmouth : Exn + (list float * list float);  (* xs(), frequency *)
  env_openai : option Exn;
  env_speech_create : option Exn;
  env_stream_to_file : option Exn;
  env_send_file : option Exn;
  env_ffmpeg : option Exn;
  env_sf_open : option Exn;
  env_sf_read : Exn + Z;                               (* sample rate *)
  env_resample : option Exn;
  env_model : option Exn;
  env_forced_align : list Z → option Exn;
  env_merge_tokens : list Z → Exn + list TokenSpan;
  bundle_sample_rate : Z
}.

(** ** The handler monad: files on disk, local variables, exceptions *)

Record State := mkState {
  disk : gset Path;                     (* the files that exist *)
  frame : gmap string (option Path);    (* locals; [None] is Python's None *)
  log : list Event                      (* what happened, oldest first *)
}.

Inductive Outcome (A : Type) :=
  | Ret (a : A)
  | Raise (e : Exn).
Arguments Ret {A} a.
Arguments Raise {A} e.

Definition M (A : Type) : Type := State → Outcome A * State.

Global Instance M_ret : MRet M := λ A a st, (Ret a, st).

Global Instance M_bind : MBind M := λ A B f m st,
  match m st with
  | (Ret a, st') => f a st'
  | (Raise e, st') => (Raise e, st')
  end.

Definition raise {A} (e : Exn) : M A := λ st, (Raise e, st).

(** [try: body  except Exception as e: handler e] *)
Definition try_except {A} (body : M A) (handler : Exn → M A) : M A := λ st,
  match body st with
  | (Ret a, st') => (Ret a, st')
  | (Raise e, st') => handler e st'
  end.

(** [try: body  finally: fin]; an exception of [fin] replaces the
    result of [body], be it a value or an exception. *)
Definition finally {A} (body : M A) (fin : M unit) : M A := λ st,
  match body st with
  | (r, st') =>
      match fin st' with
      | (Ret _, st'') => (r, st'')
      | (Raise e, st'') => (Raise e, st'')
      end
  end.

Definition emit (ev : Event) : M unit := λ st,
  (Ret (), mkState (disk st) (frame st) (log st ++ [ev])).

(** [x = v] *)
Definition assign (x : string) (v : option Path) : M unit := λ st,
  (Ret (), mkState (disk st) (<[x := v]> (frame st)) (log st)).

(** Reading the local [x]. *)
Definition local (x : string) : M (option Path) := λ st,
  match frame st !! x with
  | Some v => (Ret v, st)
  | None =>
      (Raise (mkExn "UnboundLocalError"
                ("cannot access local variable '" ++ x
                 ++ "' where it is not associated with a value")), st)
  end.

(** A call of a function of this module: the callee has its own
    locals, the caller's come back when it returns or raises. *)
Definition call {A} (callee : M A) : M A := λ st,
  match callee (mkState (disk st) ∅ (log st)) with
  | (r, st') => (r, mkState (disk st') (frame st) (log st'))
  end.

(** [tempfile.NamedTemporaryFile(delete=False)] left by its [with]
    block: a file that did not exist before now does. *)
Definition NamedTemporaryFile : M Path := λ st,
  let p := fresh (disk st) in
  (Ret p, mkState ({[p]} ∪ disk st) (frame st) (log st ++ [TempCreated p])).

Definition os_path_exists (p : Path) : M bool := λ st,
  (Ret (bool_decide (p ∈ disk st)), st).

Definition os_remove (p : Path) : M unit := λ st,
  if bool_decide (p ∈ disk st)
  then (Ret (), mkState (disk st ∖ {[p]}) (frame st) (log st ++ [Removed p]))
  else (Raise (mkExn "FileNotFoundError" "No such file or directory"), st).

(** Something outside writes the file [p]. *)
Definition write_file (p : Path) : M unit := λ st,
  (Ret (), mkState ({[p]} ∪ disk st) (frame st) (log st)).

(** A call that leaves the repository and raises or returns as the
    environment says. *)
Definition extern (o : Op) (answer : option Exn) : M unit :=
  emit (Call o);;
  match answer with
  | None => mret ()
  | Some e => emit (Failed o e);; raise e
  end.

Definition extern_val {A} (o : Op) (answer : Exn + A) : M A :=
  emit (Call o);;
  match answer with
  | inr a => mret a
  | inl e => emit (Failed o e);; raise e
  end.

(** A request starts with no local variable and an empty log. *)
Definition run {A} (handler : M A) (files_on_disk : gset Path)
  : Outcome A * State :=
  handler (mkState files_on_disk ∅ []).

(** ** The handlers *)

Definition MAX_AUDIO_FILE_SIZE : Z := 10 * 1024 * 1024.

Definition jsonify_error (msg : string) (code : Z) : Response :=
  mkResponse code (JsonError msg).

(** [if path and os.path.exists(path): os.remove(path)], the cleanup
    of [forced_align_waveform] and [forced_alignment_endpoint]. *)
Definition remove_if_set (x : string) : M unit :=
  v ← local x;
  match v with
  | None => mret ()
  | Some path =>
      there ← os_path_exists path;
      if there : bool then os_remove path else mret ()
  end.

(** [if os.path.exists(path): os.remove(path)], the cleanup of
    [analyze_pitch] and [text_to_speech]. *)
Definition remove_if_exists (x : string) : M unit :=
  v ← local x;
  match v with
  | None =>
      raise (mkExn "TypeError"
               "stat: path should be string, bytes, os.PathLike or integer, not NoneType")
  | Some path =>
      there ← os_path_exists path;
      if there : bool then os_remove path else mret ()
  end.

(** [py_index l i] is [l[i]] for a tuple [l], negative indices
    counting from the end. *)
Definition py_index {A} (l : list A) (i : Z) : option A :=
  let n := Z.of_nat (length l) in
  if ((0 <=? i) && (i <? n))%Z then l !! Z.to_nat i
  else if ((- n <=? i) && (i <? 0))%Z then l !! Z.to_nat (n + i)
  else None.

Section Handlers.

Variable env : Env.
Variable DICT_NO_STAR : gmap ascii Z.
Variable LABELS_NO_STAR : list string.
Variable request : Request.

(** [voiced] is the comprehension of lines 52-56. *)
Definition voiced (time_stamps pitch_values : list float)
  : list (float * float) :=
  filter (λ tf, float_gt0 tf.2 = true) (zip time_stamps pitch_values).

Definition analyze_pitch : M Response :=
  match files request !! "audio" with
  | None => mret (jsonify_error "No audio file provided" 400)
  | Some audio_file =>
      temp_wav ← NamedTemporaryFile;
      extern OpSave (env_save env);;
      write_file temp_wav;;
      assign "temp_wav_path" (Some temp_wav);;
      finally
        (try_except
           ('(time_stamps, pitch_values) ←
               extern_val OpParselmouth (env_parselmouth env);
            mret (mkResponse 200 (JsonPitch (voiced time_stamps pitch_values))))
           (λ e, mret (jsonify_error (exn_msg e) 500)))
        (remove_if_exists "temp_wav_path")
  end.

Definition text_to_speech : M Response :=
  let data := get_json request in
  let text := data !! "text" in
  let api_key := data !! "api_key" in
  if negb (truthy text) then mret (jsonify_error "No text provided" 400)
  else if negb (truthy api_key)
  then mret (jsonify_error "No API key provided" 400)
  else
    finally
      (try_except
         (extern OpOpenAI (env_openai env);;
          temp_audio ← NamedTemporaryFile;
          assign "speech_file_path" (Some temp_audio);;
          extern OpSpeechCreate (env_speech_create env);;
          extern OpStreamToFile (env_stream_to_file env);;
          write_file temp_audio;;
          extern OpSendFile (env_send_file env);;
          mret (mkResponse 200 (Attachment temp_audio "speech.mp3" "audio/mpeg")))
         (λ e, mret (jsonify_error (exn_msg e) 500)))
      (remove_if_exists "speech_file_path").

Definition convert_to_pcm_wav (input_path output_path : Path) : M unit :=
  try_except
    (extern OpFfmpeg (env_ffmpeg env);;
     write_file output_path)
    (λ e,
       if String.eqb (exn_class e) "CalledProcessError"
       then raise (mkExn "RuntimeError"
                     ("ffmpeg conversion failed: " ++ exn_msg e))
       else raise e).

(** Everything [inspect_audio_file] does is logging; what it raises it
    catches. *)
Definition inspect_audio_file (wav_path : Path) : M unit :=
  try_except (extern OpInspect (env_sf_open env)) (λ e, mret ()).

(** [sf.read]: open the file, then read it. *)
Definition sf_read (wav_path : Path) : M Z :=
  emit (Call OpSfRead);;
  match env_sf_open env with
  | Some e => emit (Failed OpSfRead e);; raise e
  | None =>
      match env_sf_read env with
      | inl e => emit (Failed OpSfRead e);; raise e
      | inr sr => mret sr
      end
  end.

Definition alignment_entry (span : TokenSpan) : M AlignEntry :=
  match py_index LABELS_NO_STAR (span_token span) with
  | Some label =>
      mret {| token := label; start_frame := span_start span;
              end_frame := span_end span; score := span_score span |}
  | None => raise (mkExn "IndexError" "tuple index out of range")
  end.

Fixpoint alignment_list (token_spans : list TokenSpan) : M (list AlignEntry) :=
  match token_spans with
  | [] => mret []
  | span :: rest =>
      entry ← alignment_entry span;
      entries ← alignment_list rest;
      mret (entry :: entries)
  end.

Definition forced_align_waveform (wav_path : Path) (transcript : string)
  : M (list AlignEntry) :=
  assign "converted_wav_path" None;;
  finally
    (try_except
       (tmp_converted ← NamedTemporaryFile;
        assign "converted_wav_path" (Some tmp_converted);;
        convert_to_pcm_wav wav_path tmp_converted;;
        inspect_audio_file tmp_converted;;
        sr ← sf_read tmp_converted;
        (if bool_decide (sr ≠ bundle_sample_rate env)
         then extern OpResample (env_resample env)
         else mret ());;
        extern OpModel (env_model env);;
        let tokens := tokens_of DICT_NO_STAR (chars transcript) in
        match tokens with
        | [] => raise (mkExn "ValueError" "No valid tokens found in transcript.")
        | _ =>
            extern OpForcedAlign (env_forced_align env tokens);;
            token_spans ← extern_val OpMergeTokens (env_merge_tokens env tokens);
            alignment_list token_spans
        end)
       (λ e, raise (mkExn "RuntimeError"
                      ("Failed during forced alignment: " ++ exn_msg e))))
    (remove_if_set "converted_wav_path").

Definition forced_alignment_endpoint : M Response :=
  assign "tmp_wav_path" None;;
  finally
    (try_except
       (match files request !! "audio" with
        | None => mret (jsonify_error "No audio file provided" 400)
        | Some audio_file =>
            match form request !! "transcript" with
            | None => mret (jsonify_error "No transcript text provided" 400)
            | Some transcript =>
                let file_size := content_length audio_file in
                if bool_decide (file_size > MAX_AUDIO_FILE_SIZE)
                then mret (jsonify_error "Audio file too large" 400)
                else
                  tmp ← NamedTemporaryFile;
                  extern OpSave (env_save env);;
                  write_file tmp;;
                  assign "tmp_wav_path" (Some tmp);;
                  alignment_data ← call (forced_align_waveform tmp transcript);
                  mret (mkResponse 200 (JsonAlignment alignment_data))
            end
        end)
       (λ e, mret (jsonify_error ("Internal server error: " ++ exn_msg e) 500)))
    (remove_if_set "tmp_wav_path").

End Handlers.

(** ** Concrete environments and requests *)

(** [MMS_FA.get_labels(star=None)] of torchaudio. *)
Definition MMS_FA_labels : list string :=
  ["-"; "a"; "i"; "e"; "n"; "o"; "u"; "t"; "s"; "r"; "m"; "k"; "l"; "d";
   "g"; "h"; "y"; "b"; "p"; "w"; "c"; "v"; "j"; "z"; "f"; "'"; "q"; "x"].

(** Every call outside the repository returns. *)
Definition env_all_fine : Env := {|
  env_save := None;
  env_parselmouth :=
    inr ([Finite 0; Finite (1#100); Finite (2#100)],
         [Finite 0; Finite 220; Finite (2205#10)]);
  env_openai := None;
  env_speech_create := None;
  env_stream_to_file := None;
  env_send_file := None;
  env_ffmpeg := None;
  env_sf_open := None;
  env_sf_read := inr 16000;
  env_resample := None;
  env_model := None;
  env_forced_align := λ _, None;
  env_merge_tokens := λ _,
    inr [ {| span_token := 15; span_start := 3; span_end := 5;
             span_score := Finite (9#10) |} ];
  bundle_sample_rate := 16000
|}.

(** Writing the upload to the temporary file fails. *)
Definition env_save_fails : Env := {|
  env_save := Some (mkExn "OSError" "[Errno 28] No space left on device");
  env_parselmouth := env_parselmouth env_all_fine;
  env_openai := None;
  env_speech_create := None;
  env_stream_to_file := None;
  env_send_file := None;
  env_ffmpeg := None;
  env_sf_open := None;
  env_sf_read := inr 16000;
  env_resample := None;
  env_model := None;
  env_forced_align := λ _, None;
  env_merge_tokens := env_merge_tokens env_all_fine;
  bundle_sample_rate := 16000
|}.

(** ffmpeg exits with a non-zero status. *)
Definition env_ffmpeg_fails : Env := {|
  env_save := None;
  env_parselmouth := inl (mkExn "PraatError" "Sound not read from sound file.");
  env_openai := None;
  env_speech_create := Some (mkExn "APIConnectionError" "Connection error.");
  env_stream_to_file := None;
  env_send_file := None;
  env_ffmpeg :=
    Some (mkExn "CalledProcessError" "Command returned non-zero exit status 1.");
  env_sf_open := None;
  env_sf_read := inr 16000;
  env_resample := None;
  env_model := None;
  env_forced_align := λ _, None;
  env_merge_tokens := env_merge_tokens env_all_fine;
  bundle_sample_rate := 16000
|}.

(** A multipart request with an [audio] file of [size] bytes and a
    [transcript] field. *)
Definition upload (size : Z) (transcript : string) : Request := {|
  files := {[ "audio" := {| content_length := size |} ]};
  form := {[ "transcript" := transcript ]};
  get_json := ∅
|}.

(** A multipart request without the [audio] field. *)
Definition upload_without_audio : Request := {|
  files := ∅;
  form := {[ "transcript" := "hello" ]};
  get_json := ∅
|}.

(** A JSON request with the given body. *)
Definition json_request (data : gmap string JSON) : Request := {|
  files := ∅; form := ∅; get_json := data
|}.

(** ** Routing and the vocabulary of the properties *)

(** The three [@app.route(.., methods=["POST"])] rules. *)
Inductive Endpoint :=
  | ApiAnalyzePitch        (* /api/analyze_pitch *)
  | ApiTextToSpeech        (* /api/text_to_speech *)
  | ApiForcedAlignment.    (* /api/forced_alignment *)

Definition dispatch (env : Env) (DICT_NO_STAR : gmap ascii Z)
    (LABELS_NO_STAR : list string) (request : Request) (ep : Endpoint)
  : M Response :=
  match ep with
  | ApiAnalyzePitch => analyze_pitch env request
  | ApiTextToSpeech => text_to_speech env request
  | ApiForcedAlignment =>
      forced_alignment_endpoint env DICT_NO_STAR LABELS_NO_STAR request
  end.

(** [wp m Q st]: running [m] from [st] ends in an outcome and a state
    that satisfy [Q]. *)
Definition wp {A} (m : M A) (Q : Outcome A → State → Prop) (st : State)
  : Prop :=
  Q (m st).1 (m st).2.






Definition no_tokens_message : string :=
  "Internal server error: Failed during forced alignment: No valid tokens found in transcript.".

(** ** Further vocabulary *)

(** The entry that lines 194-202 of [forced_align_waveform] build from
    one span: the label at the span's token, its frames and score. *)
Definition entry_of (labels : list string) (span : TokenSpan)
    (entry : AlignEntry) : Prop :=
  py_index labels (span_token span) = Some (token entry)
  ∧ start_frame entry = span_start span
  ∧ end_frame entry = span_end span
  ∧ score entry = span_score span.

Global Instance Op_eq_dec : EqDecision Op.
Proof. solve_decision. Defined.

Definition is_call (o : Op) (ev : Event) : bool :=
  match ev with
  | Call o' => bool_decide (o = o')
  | _ => false
  end.

(** [called o events]: the log holds a call of [o]. *)
Definition called (o : Op) (events : list Event) : bool :=
  existsb (is_call o) events.

(** ** The static front end ([serve_react_app]) *)

(** [b.startswith("/")] and [a.endswith("/")] of [posixpath.join]. *)
Definition startswith_sep (s : string) : bool :=
  match s with
  | String c _ => Ascii.eqb c "/"
  | EmptyString => false
  end.

Fixpoint endswith_sep (s : string) : bool :=
  match s with
  | EmptyString => false
  | String c EmptyString => Ascii.eqb c "/"
  | String _ s' => endswith_sep s'
  end.

(** [os.path.join(a, b)] on a POSIX system. *)
Definition os_path_join (a b : string) : string :=
  if startswith_sep b then b
  else if String.eqb a "" || endswith_sep a then a ++ b
  else a ++ "/" ++ b.

(** [app.static_folder] *)
Definition static_folder : string := "/app/build".

(** [serve_react_app path]: the directory and the file name handed to
    [send_from_directory]; [os_path_exists] is the file system's answer
    to [os.path.exists]. *)
Definition serve_react_app (os_path_exists : string → bool) (path : string)
  : string * string :=
  if negb (String.eqb path "")
     && os_path_exists (os_path_join static_folder path)
  then (static_folder, path)
  else (static_folder, "index.html").

(** ** Further environments and requests *)

(** Building the API client fails. *)
Definition env_client_fails : Env := {|
  env_save := None;
  env_parselmouth := env_parselmouth env_all_fine;
  env_openai :=
    Some (mkExn "TypeError"
            "Client.__init__() got an unexpected keyword argument 'proxies'");
  env_speech_create := None;
  env_stream_to_file := None;
  env_send_file := None;
  env_ffmpeg := None;
  env_sf_open := None;
  env_sf_read := inr 16000;
  env_resample := None;
  env_model := None;
  env_forced_align := λ _, None;
  env_merge_tokens := env_merge_tokens env_all_fine;
  bundle_sample_rate := 16000
|}.

(** The converted file is read at 8 kHz. *)
Definition env_needs_resample : Env := {|
  env_save := None;
  env_parselmouth := env_parselmouth env_all_fine;
  env_openai := None;
  env_speech_create := None;
  env_stream_to_file := None;
  env_send_file := None;
  env_ffmpeg := None;
  env_sf_open := None;
  env_sf_read := inr 8000;
  env_resample := None;
  env_model := None;
  env_forced_align := λ _, None;
  env_merge_tokens := env_merge_tokens env_all_fine;
  bundle_sample_rate := 16000
|}.

(** The pitch library finds no voiced frame. *)
Definition env_unvoiced : Env := {|
  env_save := None;
  env_parselmouth :=
    inr ([Finite 0; Finite (1#100); Finite (2#100)],
         [Finite 0; Finite 0; Finite 0]);
  env_openai := None;
  env_speech_create := None;
  env_stream_to_file := None;
  env_send_file := None;
  env_ffmpeg := None;
  env_sf_open := None;
  env_sf_read := inr 16000;
  env_resample := None;
  env_model := None;
  env_forced_align := λ _, None;
  env_merge_tokens := env_merge_tokens env_all_fine;
  bundle_sample_rate := 16000
|}.

(** A multipart request with an [audio] file and no [transcript]. *)
Definition upload_without_transcript : Request := {|
  files := {[ "audio" := {| content_length := 1000 |} ]};
  form := ∅;
  get_json := ∅
|}.

(** A body with a text and an API key. *)
Definition speech_request : Request :=
  json_request {[ "text" := JString "hi"; "api_key" := JString "sk-test" ]}.

(** * Properties *)

(** ** Tokenisation *)

Lemma lower_char_idemp c : Py.lower_char (Py.lower_char c) = Py.lower_char c.
Proof. destruct c as [[] [] [] [] [] [] [] []]; reflexivity. Qed.

Lemma lower_idemp s : Py.lower (Py.lower s) = Py.lower s.
Proof.
  unfold Py.lower. rewrite <- list_fmap_compose.
  apply list_fmap_ext. intros _ c _. apply lower_char_idemp.
Qed.

Section TokenFacts.

Variable DICT_NO_STAR : gmap ascii Z.

Lemma word_tokens_omap word :
  word_tokens DICT_NO_STAR word = omap (λ char, DICT_NO_STAR !! char) word.
Proof.
  unfold word_tokens. induction word as [|c word IH]; [done|].
  rewrite bind_cons, IH. simpl. by destruct (DICT_NO_STAR !! c).
Qed.

(** Splitting and then walking the words visits the characters that
    are not separators, in order. *)
Lemma split_from_tokens cur s :
  Py.split_from cur s ≫= word_tokens DICT_NO_STAR =
  word_tokens DICT_NO_STAR
    (rev cur ++ filter (λ c, Py.isspace c = false) s).
Proof.
  revert cur. induction s as [|c s IH]; intros cur.
  - rewrite filter_nil, app_nil_r. destruct cur; [done|].
    simpl Py.split_from. rewrite bind_cons. change ([] ≫= word_tokens DICT_NO_STAR) with (@nil Z).
    by rewrite app_nil_r.
  - simpl Py.split_from. destruct (Py.isspace c) eqn:Hc.
    + rewrite filter_cons_False by congruence.
      destruct cur as [|c' cur].
      * rewrite IH. done.
      * rewrite bind_cons, IH. simpl rev at 2. rewrite app_nil_l.
        unfold word_tokens. by rewrite bind_app.
    + rewrite filter_cons_True by done.
      rewrite IH. simpl rev. by rewrite <- app_assoc.
Qed.

Lemma tokens_of_filter (transcript : list ascii) :
  tokens_of DICT_NO_STAR transcript =
  omap (λ char, DICT_NO_STAR !! char)
    (filter (λ c, Py.isspace c = false) (Py.lower transcript)).
Proof.
  unfold tokens_of, Py.split. rewrite split_from_tokens.
  apply word_tokens_omap.
Qed.

Lemma omap_drop_spaces (s : list ascii) :
  (∀ c, Py.isspace c = true → DICT_NO_STAR !! c = None) →
  omap (λ char, DICT_NO_STAR !! char) (filter (λ c, Py.isspace c = false) s)
  = omap (λ char, DICT_NO_STAR !! char) s.
Proof.
  intros Hsp. induction s as [|c s IH]; [done|].
  destruct (Py.isspace c) eqn:Hc.
  - rewrite filter_cons_False by congruence. simpl.
    by rewrite (Hsp c Hc).
  - rewrite filter_cons_True by done. simpl.
    destruct (DICT_NO_STAR !! c); [f_equal|]; apply IH.
Qed.

End TokenFacts.

Lemma MMS_FA_dict_no_space c :
  Py.isspace c = true → MMS_FA_dict !! c = None.
Proof.
  destruct c as [[] [] [] [] [] [] [] []]; intros H;
    first [ discriminate H | vm_compute; reflexivity ].
Qed.

(** C5, as stated: the tokens of a transcript are the vocabulary
    indices of its characters as they stand.  It fails on the
    transcript "A": the code lowers the text first and finds the index
    of "a", while no upper-case letter is in the vocabulary. *)
Lemma C5_counterexample :
  tokens_of MMS_FA_dict (chars "A") = [1] ∧
  tokens_as_specified MMS_FA_dict (chars "A") = [] ∧
  tokens_of MMS_FA_dict (chars "A")
    ≠ tokens_as_specified MMS_FA_dict (chars "A").
Proof. vm_compute. repeat split; congruence. Qed.

(** C5, amended: for a vocabulary that holds no separator character,
    the tokens are the vocabulary indices of the characters of the
    lower-cased transcript, in order, the characters outside the
    vocabulary dropped. *)
Theorem C5_tokens_of_lowered (DICT_NO_STAR : gmap ascii Z)
    (transcript : list ascii)
    (Hsp : ∀ c, Py.isspace c = true → DICT_NO_STAR !! c = None) :
  tokens_of DICT_NO_STAR transcript =
  tokens_as_specified DICT_NO_STAR (Py.lower transcript).
Proof.
  rewrite tokens_of_filter. unfold tokens_as_specified.
  by apply omap_drop_spaces.
Qed.

Lemma C5_witness :
  (∀ c, Py.isspace c = true → MMS_FA_dict !! c = None) ∧
  tokens_of MMS_FA_dict (chars "Hello, World 1") =
  tokens_as_specified MMS_FA_dict (Py.lower (chars "Hello, World 1")).
Proof.
  split; [exact MMS_FA_dict_no_space|].
  apply (C5_tokens_of_lowered MMS_FA_dict (chars "Hello, World 1")).
  exact MMS_FA_dict_no_space.
Defined.

(** C10: tokenisation does not see case, the tokens of a transcript
    are those of its lower-cased form. *)
Theorem C10_tokens_case_insensitive (DICT_NO_STAR : gmap ascii Z)
    (transcript : list ascii) :
  tokens_of DICT_NO_STAR transcript =
  tokens_of DICT_NO_STAR (Py.lower transcript).
Proof. unfold tokens_of. by rewrite lower_idemp. Qed.

Example tokens_of_HELLO :
  tokens_of MMS_FA_dict (chars "HeLLo") = [15; 3; 12; 12; 5]
  ∧ tokens_of MMS_FA_dict (chars "hello") = [15; 3; 12; 12; 5].
Proof. vm_compute. split; reflexivity. Qed.

(** ** Rules for running a handler *)

Section Rules.

Context {A B : Type}.
Implicit Types (Q : Outcome A → State → Prop) (st : State).

Lemma wp_ret (a : A) Q st : Q (Ret a) st → wp (mret a) Q st.
Proof. done. Qed.

Lemma wp_raise e Q st : Q (Raise e) st → wp (raise e) Q st.
Proof. done. Qed.

Lemma wp_bind (m : M B) (f : B → M A) Q st :
  wp m (λ o st', match o with
                 | Ret b => wp (f b) Q st'
                 | Raise e => Q (Raise e) st'
                 end) st →
  wp (m ≫= f) Q st.
Proof.
  unfold wp, mbind, M_bind. destruct (m st) as [[b|e] st']; done.
Qed.

Lemma wp_try_except (m : M A) (h : Exn → M A) Q st :
  wp m (λ o st', match o with
                 | Ret a => Q (Ret a) st'
                 | Raise e => wp (h e) Q st'
                 end) st →
  wp (try_except m h) Q st.
Proof.
  unfold wp, try_except. destruct (m st) as [[b|e] st']; done.
Qed.

Lemma wp_finally (m : M A) (fin : M unit) Q st :
  wp m (λ r st', wp fin (λ o st'', match o with
                                   | Ret _ => Q r st''
                                   | Raise e => Q (Raise e) st''
                                   end) st') st →
  wp (finally m fin) Q st.
Proof.
  unfold wp, finally. destruct (m st) as [r st']; simpl.
  destruct (fin st') as [[[]|e] st'']; done.
Qed.

Lemma wp_call (m : M A) Q st :
  wp m (λ r st', Q r (mkState (disk st') (frame st) (log st')))
    (mkState (disk st) ∅ (log st)) →
  wp (call m) Q st.
Proof. unfold wp, call. by destruct (m _) as [r st']. Qed.

Lemma run_wp (h : M A) d Q :
  wp h Q (mkState d ∅ []) → Q (run h d).1 (run h d).2.
Proof. done. Qed.

End Rules.

Section Primitives.

Implicit Types (st : State).

Lemma wp_emit ev (Q : Outcome unit → State → Prop) st :
  Q (Ret ()) (mkState (disk st) (frame st) (log st ++ [ev])) →
  wp (emit ev) Q st.
Proof. done. Qed.

Lemma wp_assign x v (Q : Outcome unit → State → Prop) st :
  Q (Ret ()) (mkState (disk st) (<[x:=v]> (frame st)) (log st)) →
  wp (assign x v) Q st.
Proof. done. Qed.

Lemma wp_NamedTemporaryFile (Q : Outcome Path → State → Prop) st :
  (∀ p, p ∉ disk st →
     Q (Ret p)
       (mkState ({[p]} ∪ disk st) (frame st) (log st ++ [TempCreated p]))) →
  wp NamedTemporaryFile Q st.
Proof. intros H. apply H, is_fresh. Qed.

Lemma wp_write_file p (Q : Outcome unit → State → Prop) st :
  Q (Ret ()) (mkState ({[p]} ∪ disk st) (frame st) (log st)) →
  wp (write_file p) Q st.
Proof. done. Qed.

Lemma wp_extern o answer (Q : Outcome unit → State → Prop) st :
  match answer with
  | None => Q (Ret ()) (mkState (disk st) (frame st) (log st ++ [Call o]))
  | Some e =>
      Q (Raise e)
        (mkState (disk st) (frame st) ((log st ++ [Call o]) ++ [Failed o e]))
  end →
  wp (extern o answer) Q st.
Proof. by destruct answer. Qed.

Lemma wp_extern_val {A} o (answer : Exn + A)
    (Q : Outcome A → State → Prop) st :
  match answer with
  | inr a => Q (Ret a) (mkState (disk st) (frame st) (log st ++ [Call o]))
  | inl e =>
      Q (Raise e)
        (mkState (disk st) (frame st) ((log st ++ [Call o]) ++ [Failed o e]))
  end →
  wp (extern_val o answer) Q st.
Proof. by destruct answer. Qed.

Lemma wp_remove_path p (Q : Outcome unit → State → Prop) st :
  (if bool_decide (p ∈ disk st)
   then Q (Ret ())
          (mkState (disk st ∖ {[p]}) (frame st) (log st ++ [Removed p]))
   else Q (Ret ()) st) →
  wp (there ← os_path_exists p;
      if there : bool then os_remove p else mret ()) Q st.
Proof.
  unfold wp, mbind, M_bind, os_path_exists, os_remove, mret, M_ret. simpl.
  destruct (bool_decide (p ∈ disk st)) eqn:Hb; simpl; [rewrite Hb|]; done.
Qed.

Lemma wp_remove_if_set x v (Q : Outcome unit → State → Prop) st :
  frame st !! x = Some v →
  match v with
  | None => Q (Ret ()) st
  | Some p =>
      if bool_decide (p ∈ disk st)
      then Q (Ret ())
             (mkState (disk st ∖ {[p]}) (frame st) (log st ++ [Removed p]))
      else Q (Ret ()) st
  end →
  wp (remove_if_set x) Q st.
Proof.
  intros Hx H. unfold remove_if_set. apply wp_bind.
  unfold wp at 1, local. rewrite Hx. simpl.
  destruct v as [p|]; [by apply wp_remove_path|done].
Qed.

Lemma wp_remove_if_exists x p (Q : Outcome unit → State → Prop) st :
  frame st !! x = Some (Some p) →
  (if bool_decide (p ∈ disk st)
   then Q (Ret ())
          (mkState (disk st ∖ {[p]}) (frame st) (log st ++ [Removed p]))
   else Q (Ret ()) st) →
  wp (remove_if_exists x) Q st.
Proof.
  intros Hx H. unfold remove_if_exists. apply wp_bind.
  unfold wp at 1, local. rewrite Hx. simpl. by apply wp_remove_path.
Qed.

(** The cleanup of a variable that was never assigned. *)
Lemma wp_remove_if_exists_unbound x (Q : Outcome unit → State → Prop) st :
  frame st !! x = None →
  Q (Raise (mkExn "UnboundLocalError"
              ("cannot access local variable '" ++ x
               ++ "' where it is not associated with a value"))) st →
  wp (remove_if_exists x) Q st.
Proof.
  intros Hx H. unfold remove_if_exists. apply wp_bind.
  unfold wp, local. by rewrite Hx.
Qed.

Lemma wp_alignment_list labels spans
    (Q : Outcome (list AlignEntry) → State → Prop) st :
  (∀ entries, Q (Ret entries) st) →
  Q (Raise (mkExn "IndexError" "tuple index out of range")) st →
  wp (alignment_list labels spans) Q st.
Proof.
  intros Hret Hraise. revert Q Hret Hraise.
  induction spans as [|span spans IH]; intros Q Hret Hraise; simpl.
  - apply wp_ret, Hret.
  - apply wp_bind. unfold alignment_entry.
    destruct (py_index labels (span_token span)).
    + apply wp_ret, wp_bind, IH; [|done].
      intros entries. apply wp_ret, Hret.
    + by apply wp_raise.
Qed.

End Primitives.

Ltac wp_simpl :=
  cbn beta iota delta [disk frame log fst snd app exn_msg exn_class].

Ltac wp_cleanup :=
  wp_simpl;
  lazymatch goal with
  | |- if bool_decide ?P then _ else _ => destruct (bool_decide_reflect P)
  | |- _ => idtac
  end.

Ltac wp_step :=
  lazymatch goal with
  | |- wp (mret _) _ _ => apply wp_ret
  | |- wp (raise _) _ _ => apply wp_raise
  | |- wp (mbind _ _) _ _ => apply wp_bind
  | |- wp (try_except _ _) _ _ => apply wp_try_except
  | |- wp (finally _ _) _ _ => apply wp_finally
  | |- wp (call _) _ _ => apply wp_call
  | |- wp (emit _) _ _ => apply wp_emit
  | |- wp (assign _ _) _ _ => apply wp_assign
  | |- wp NamedTemporaryFile _ _ =>
      apply wp_NamedTemporaryFile; wp_simpl; intros ? ?
  | |- wp (write_file _) _ _ => apply wp_write_file
  | |- wp (extern _ ?a) _ _ => apply wp_extern; destruct a eqn:?
  | |- wp (extern_val _ ?a) _ _ => apply wp_extern_val; destruct a eqn:?
  | |- wp (remove_if_set _) _ _ =>
      eapply wp_remove_if_set; [apply lookup_insert_eq|]; wp_cleanup
  | |- wp (remove_if_exists _) _ _ =>
      first [ eapply wp_remove_if_exists; [apply lookup_insert_eq|]; wp_cleanup
            | apply wp_remove_if_exists_unbound; [apply lookup_empty|] ]
  | |- wp (alignment_list _ _) _ _ => apply wp_alignment_list; [intros ?|]
  | |- wp (forced_align_waveform _ _ _ _ _) _ _ => unfold forced_align_waveform
  | |- wp (convert_to_pcm_wav _ _ _) _ _ => unfold convert_to_pcm_wav
  | |- wp (inspect_audio_file _ _) _ _ => unfold inspect_audio_file
  | |- wp (sf_read _ _) _ _ => unfold sf_read
  | |- wp (match ?x with _ => _ end) _ _ => destruct x eqn:?
  | |- wp (let _ := _ in _) _ _ => cbv zeta
  end; wp_simpl.

(** Keep the facts about the files, drop the rest. *)
Ltac only_files :=
  repeat match goal with
         | H : ?T |- _ =>
             lazymatch T with
             | _ ∉ _ => fail
             | ¬ (_ ∈ _) => fail
             | _ ∈ _ => fail
             | _ => clear H
             end
         end.

(** ** Sample runs *)

(** A short upload with the transcript "hello": the answer carries the
    spans of the environment with their labels, both temporary files
    are created and removed. *)
Example forced_alignment_hello :
  let r := run (forced_alignment_endpoint env_all_fine MMS_FA_dict
                  MMS_FA_labels (upload 1000 "hello")) ∅ in
  r.1 = Ret (mkResponse 200
               (JsonAlignment
                  [ {| token := "h"; start_frame := 3; end_frame := 5;
                       score := Finite (9#10) |} ]))
  ∧ log r.2 = [TempCreated 1%positive; Call OpSave; TempCreated 2%positive;
               Call OpFfmpeg; Call OpInspect; Call OpSfRead; Call OpModel;
               Call OpForcedAlign; Call OpMergeTokens;
               Removed 2%positive; Removed 1%positive]
  ∧ elements (disk r.2) = [].
Proof. vm_compute. repeat split; reflexivity. Qed.

Example text_to_speech_hi :
  let r := run (text_to_speech env_all_fine
                  (json_request {[ "text" := JString "hi";
                                   "api_key" := JString "sk-test" ]})) ∅ in
  r.1 = Ret (mkResponse 200 (Attachment 1%positive "speech.mp3" "audio/mpeg"))
  ∧ log r.2 = [Call OpOpenAI; TempCreated 1%positive; Call OpSpeechCreate;
               Call OpStreamToFile; Call OpSendFile; Removed 1%positive]
  ∧ elements (disk r.2) = [].
Proof. vm_compute. repeat split; reflexivity. Qed.

Example forced_alignment_ffmpeg_fails :
  (run (forced_alignment_endpoint env_ffmpeg_fails MMS_FA_dict MMS_FA_labels
          (upload 1000 "hello")) ∅).1
  = Ret (jsonify_error
           "Internal server error: Failed during forced alignment: ffmpeg conversion failed: Command returned non-zero exit status 1."
           500).
Proof. vm_compute. reflexivity. Qed.

(** ** Temporary files *)

Lemma analyze_pitch_disk env request d :
  env_save env = None →
  disk (run (analyze_pitch env request) d).2 = d.
Proof.
  intros Hsave. apply (run_wp _ d (λ _ st', disk st' = d)).
  unfold analyze_pitch.
  repeat wp_step; try congruence; only_files; set_solver.
Qed.

Lemma text_to_speech_disk env request d :
  disk (run (text_to_speech env request) d).2 = d.
Proof.
  apply (run_wp _ d (λ _ st', disk st' = d)).
  unfold text_to_speech.
  repeat wp_step; try congruence; only_files; set_solver.
Qed.

Lemma forced_alignment_disk env DICT_NO_STAR LABELS_NO_STAR request d :
  env_save env = None →
  disk (run (forced_alignment_endpoint env DICT_NO_STAR LABELS_NO_STAR
               request) d).2 = d.
Proof.
  intros Hsave. apply (run_wp _ d (λ _ st', disk st' = d)).
  unfold forced_alignment_endpoint.
  repeat wp_step; try congruence; only_files; set_solver.
Qed.

(** ** Requests turned away before any work *)

(** C8: a request to the pitch or to the alignment endpoint without the
    [audio] field is answered 400 with an error message; nothing was
    done for it: no temporary file, no call of an adapter, the disk as
    it was. *)
Theorem C8_missing_audio_no_processing (env : Env)
    (DICT_NO_STAR : gmap ascii Z) (LABELS_NO_STAR : list string)
    (request : Request) (d : gset Path)
    (Haudio : files request !! "audio" = None) :
  let pitch := run (analyze_pitch env request) d in
  let align :=
    run (forced_alignment_endpoint env DICT_NO_STAR LABELS_NO_STAR request) d in
  (pitch.1 = Ret (jsonify_error "No audio file provided" 400)
   ∧ disk pitch.2 = d ∧ log pitch.2 = [])
  ∧ (align.1 = Ret (jsonify_error "No audio file provided" 400)
     ∧ disk align.2 = d ∧ log align.2 = []).
Proof.
  cbv zeta. split.
  - unfold run, analyze_pitch. by rewrite Haudio.
  - apply (run_wp _ d (λ o st',
      o = Ret (jsonify_error "No audio file provided" 400)
      ∧ disk st' = d ∧ log st' = [])).
    unfold forced_alignment_endpoint. rewrite Haudio.
    by repeat wp_step.
Qed.

Lemma C8_witness :
  files upload_without_audio !! "audio" = None
  ∧ (let pitch := run (analyze_pitch env_all_fine upload_without_audio) ∅ in
     let align :=
       run (forced_alignment_endpoint env_all_fine MMS_FA_dict MMS_FA_labels
              upload_without_audio) ∅ in
     (pitch.1 = Ret (jsonify_error "No audio file provided" 400)
      ∧ disk pitch.2 = ∅ ∧ log pitch.2 = [])
     ∧ (align.1 = Ret (jsonify_error "No audio file provided" 400)
        ∧ disk align.2 = ∅ ∧ log align.2 = [])).
Proof.
  split; [reflexivity|].
  apply (C8_missing_audio_no_processing env_all_fine MMS_FA_dict
           MMS_FA_labels upload_without_audio ∅).
  reflexivity.
Defined.



(** C6: an alignment request whose upload is larger than 10 MB is
    answered 400 and the handler has created no file: the log holds no
    event, the disk is as it was. *)
Theorem C6_oversized_upload_rejected (env : Env)
    (DICT_NO_STAR : gmap ascii Z) (LABELS_NO_STAR : list string)
    (request : Request) (d : gset Path) (audio_file : FileStorage)
    (Haudio : files request !! "audio" = Some audio_file)
    (Hsize : content_length audio_file > 10 * 1024 * 1024) :
  let r :=
    run (forced_alignment_endpoint env DICT_NO_STAR LABELS_NO_STAR request) d in
  (∃ msg, r.1 = Ret (jsonify_error msg 400))
  ∧ disk r.2 = d ∧ log r.2 = [].
Proof.
  cbv zeta.
  apply (run_wp _ d (λ o st',
    (∃ msg, o = Ret (jsonify_error msg 400)) ∧ disk st' = d ∧ log st' = [])).
  unfold forced_alignment_endpoint. rewrite Haudio.
  rewrite (bool_decide_eq_true_2 (content_length audio_file > MAX_AUDIO_FILE_SIZE))
    by exact Hsize.
  repeat wp_step; eauto.
Qed.

Lemma C6_witness :
  files (upload (10 * 1024 * 1024 + 1) "hello") !! "audio"
    = Some {| content_length := 10 * 1024 * 1024 + 1 |}
  ∧ content_length {| content_length := 10 * 1024 * 1024 + 1 |}
    > 10 * 1024 * 1024
  ∧ (let r :=
       run (forced_alignment_endpoint env_all_fine MMS_FA_dict MMS_FA_labels
              (upload (10 * 1024 * 1024 + 1) "hello")) ∅ in
     (∃ msg, r.1 = Ret (jsonify_error msg 400))
     ∧ disk r.2 = ∅ ∧ log r.2 = []).
Proof.
  split; [reflexivity|]. split; [reflexivity|].
  apply (C6_oversized_upload_rejected env_all_fine MMS_FA_dict MMS_FA_labels
           (upload (10 * 1024 * 1024 + 1) "hello") ∅
           {| content_length := 10 * 1024 * 1024 + 1 |});
    reflexivity.
Defined.

(** ** The pitch contour *)

Lemma float_gt0_not_le0 f : float_gt0 f = true → float_le0 f = false.
Proof. destruct f; simpl; try done. by intros ->%negb_true_iff. Qed.

Lemma voiced_positive time_stamps pitch_values :
  Forall (λ tf : float * float, float_gt0 tf.2 = true ∧ float_le0 tf.2 = false)
    (voiced time_stamps pitch_values).
Proof.
  unfold voiced. apply Forall_forall. intros tf [Hgt _]%list_elem_of_filter.
  split; [done|]. by apply float_gt0_not_le0.
Qed.

(** C4: the array of a successful pitch analysis is the sequence of
    (time, frequency) pairs of the pitch library, in order, restricted
    to the pairs whose frequency is above 0; no entry has a frequency
    of 0 or below. *)
Theorem C4_pitch_output_voiced_only (env : Env) (request : Request)
    (d : gset Path) (result : list (float * float))
    (Hok : (run (analyze_pitch env request) d).1
           = Ret (mkResponse 200 (JsonPitch result))) :
  (∃ time_stamps pitch_values,
      env_parselmouth env = inr (time_stamps, pitch_values)
      ∧ result = filter (λ tf, float_gt0 tf.2 = true)
                   (zip time_stamps pitch_values))
  ∧ Forall (λ tf, float_gt0 tf.2 = true ∧ float_le0 tf.2 = false) result.
Proof.
  revert result Hok.
  apply (run_wp _ d (λ o _, ∀ result,
    o = Ret (mkResponse 200 (JsonPitch result)) →
    (∃ time_stamps pitch_values,
        env_parselmouth env = inr (time_stamps, pitch_values)
        ∧ result = filter (λ tf, float_gt0 tf.2 = true)
                     (zip time_stamps pitch_values))
    ∧ Forall (λ tf, float_gt0 tf.2 = true ∧ float_le0 tf.2 = false) result)).
  unfold analyze_pitch.
  repeat wp_step; intros result Hres; try discriminate Hres.
  all: injection Hres as <-; split; [by eauto|apply voiced_positive].
Qed.

Lemma C4_witness :
  (run (analyze_pitch env_all_fine (upload 1000 "hello")) ∅).1
  = Ret (mkResponse 200
           (JsonPitch [(Finite (1#100), Finite 220);
                       (Finite (2#100), Finite (2205#10))]))
  ∧ ((∃ time_stamps pitch_values,
        env_parselmouth env_all_fine = inr (time_stamps, pitch_values)
        ∧ [(Finite (1#100), Finite 220); (Finite (2#100), Finite (2205#10))]
          = filter (λ tf, float_gt0 tf.2 = true)
              (zip time_stamps pitch_values))
     ∧ Forall (λ tf, float_gt0 tf.2 = true ∧ float_le0 tf.2 = false)
         [(Finite (1#100), Finite 220); (Finite (2#100), Finite (2205#10))]).
Proof.
  split; [vm_compute; reflexivity|].
  apply (C4_pitch_output_voiced_only env_all_fine (upload 1000 "hello") ∅).
  vm_compute. reflexivity.
Defined.

(** X22: a pitch analysis that the library completes is answered with
    the array. *)
Lemma analyze_pitch_succeeds env request d audio_file time_stamps pitch_values :
  files request !! "audio" = Some audio_file →
  env_save env = None →
  env_parselmouth env = inr (time_stamps, pitch_values) →
  (run (analyze_pitch env request) d).1
  = Ret (mkResponse 200 (JsonPitch (voiced time_stamps pitch_values))).
Proof.
  intros Haudio Hsave Hpitch.
  apply (run_wp _ d (λ o _,
    o = Ret (mkResponse 200 (JsonPitch (voiced time_stamps pitch_values))))).
  unfold analyze_pitch. rewrite Haudio, Hsave, Hpitch.
  by repeat wp_step.
Qed.

(** ** A transcript without tokens *)

(** Facts about a log that has been computed: membership of an event
    unfolds along the list. *)
Ltac in_log :=
  solve [ repeat first [ apply list_elem_of_here | apply list_elem_of_further ] ].





(** C2, as stated: a transcript without tokens is answered with a 400.
    On the transcript "123" the answer has status 500. *)
Lemma C2_counterexample :
  let r := run (forced_alignment_endpoint env_all_fine MMS_FA_dict
                  MMS_FA_labels (upload 1000 "123")) ∅ in
  tokens_of MMS_FA_dict (chars "123") = []
  ∧ (∃ resp, r.1 = Ret resp ∧ status resp = 500 ∧ status resp ≠ 400).
Proof.
  vm_compute. split; [reflexivity|].
  eexists. split; [reflexivity|]. split; [reflexivity|discriminate].
Qed.

(** C2, amended: an alignment request with both fields and an upload
    within the size limit whose transcript yields no token is answered
    with the 500 error envelope; when no call outside failed, its
    message is the one of the missing tokens. *)
Theorem C2_no_tokens_reported_as_500 (env : Env)
    (DICT_NO_STAR : gmap ascii Z) (LABELS_NO_STAR : list string)
    (request : Request) (d : gset Path) (audio_file : FileStorage)
    (transcript : string)
    (Haudio : files request !! "audio" = Some audio_file)
    (Htranscript : form request !! "transcript" = Some transcript)
    (Hsize : (content_length audio_file <= 10 * 1024 * 1024)%Z)
    (Htokens : tokens_of DICT_NO_STAR (chars transcript) = []) :
  let r :=
    run (forced_alignment_endpoint env DICT_NO_STAR LABELS_NO_STAR request) d in
  (∃ msg, r.1 = Ret (jsonify_error msg 500))
  ∧ ((∀ o e, Failed o e ∉ log r.2) →
     r.1 = Ret (jsonify_error no_tokens_message 500)).
Proof.
  cbv zeta.
  apply (run_wp _ d (λ out st',
    (∃ msg, out = Ret (jsonify_error msg 500))
    ∧ ((∀ o e, Failed o e ∉ log st') →
       out = Ret (jsonify_error no_tokens_message 500)))).
  unfold forced_alignment_endpoint. rewrite Haudio, Htranscript.
  rewrite (bool_decide_eq_false_2
             (content_length audio_file > MAX_AUDIO_FILE_SIZE))
    by (unfold MAX_AUDIO_FILE_SIZE; lia).
  repeat wp_step; try congruence.
  all: split; [by eauto|].
  all: intros Hquiet.
  all: first [ reflexivity | exfalso; eapply Hquiet; in_log ].
Qed.

Lemma C2_witness :
  files (upload 1000 "123") !! "audio" = Some {| content_length := 1000 |}
  ∧ form (upload 1000 "123") !! "transcript" = Some "123"
  ∧ (content_length {| content_length := 1000 |} <= 10 * 1024 * 1024)%Z
  ∧ tokens_of MMS_FA_dict (chars "123") = []
  ∧ (let r := run (forced_alignment_endpoint env_all_fine MMS_FA_dict
                     MMS_FA_labels (upload 1000 "123")) ∅ in
     (∃ msg, r.1 = Ret (jsonify_error msg 500))
     ∧ ((∀ o e, Failed o e ∉ log r.2) →
        r.1 = Ret (jsonify_error no_tokens_message 500))).
Proof.
  split; [reflexivity|]. split; [reflexivity|].
  split; [vm_compute; discriminate|]. split; [vm_compute; reflexivity|].
  apply (C2_no_tokens_reported_as_500 env_all_fine MMS_FA_dict MMS_FA_labels
           (upload 1000 "123") ∅ {| content_length := 1000 |} "123").
  - reflexivity.
  - reflexivity.
  - vm_compute. discriminate.
  - vm_compute. reflexivity.
Defined.

(** ** Temporary files on every way out *)

(** X17: when the upload was stored, every endpoint leaves the disk as
    it found it: each temporary file it created is gone. *)
Lemma temp_files_removed env DICT_NO_STAR LABELS_NO_STAR request ep d :
  env_save env = None →
  disk (run (dispatch env DICT_NO_STAR LABELS_NO_STAR request ep) d).2 = d.
Proof.
  intros Hsave. destruct ep; simpl.
  - by apply analyze_pitch_disk.
  - apply text_to_speech_disk.
  - by apply forced_alignment_disk.
Qed.

(** X16: when storing the upload fails in [forced_alignment_endpoint],
    the exception is caught and answered with 500, but [tmp_wav_path]
    is still [None] in the [finally] block and the file stays. *)
Lemma forced_alignment_save_failure env DICT_NO_STAR LABELS_NO_STAR request d
    audio_file transcript e :
  files request !! "audio" = Some audio_file →
  form request !! "transcript" = Some transcript →
  (content_length audio_file <= 10 * 1024 * 1024)%Z →
  env_save env = Some e →
  let r :=
    run (forced_alignment_endpoint env DICT_NO_STAR LABELS_NO_STAR request) d in
  r.1 = Ret (jsonify_error ("Internal server error: " ++ exn_msg e) 500)
  ∧ ∃ p, (p ∉ d)
         ∧ log r.2 = [TempCreated p; Call OpSave; Failed OpSave e]
         ∧ disk r.2 = {[p]} ∪ d.
Proof.
  intros Haudio Htranscript Hsize Hsave. cbv zeta.
  apply (run_wp _ d (λ out st',
    out = Ret (jsonify_error ("Internal server error: " ++ exn_msg e) 500)
    ∧ ∃ p, (p ∉ d)
           ∧ log st' = [TempCreated p; Call OpSave; Failed OpSave e]
           ∧ disk st' = {[p]} ∪ d)).
  unfold forced_alignment_endpoint. rewrite Haudio, Htranscript, Hsave.
  rewrite (bool_decide_eq_false_2
             (content_length audio_file > MAX_AUDIO_FILE_SIZE))
    by (unfold MAX_AUDIO_FILE_SIZE; lia).
  repeat wp_step; try congruence.
  match goal with H : Some _ = Some _ |- _ => injection H as -> end.
  split; [reflexivity|]. eauto.
Qed.

(** X21: in [analyze_pitch] the upload is stored outside the [try]
    block: the exception leaves the handler and the file stays. *)
Lemma analyze_pitch_save_failure env request d audio_file e :
  files request !! "audio" = Some audio_file →
  env_save env = Some e →
  let r := run (analyze_pitch env request) d in
  r.1 = Raise e
  ∧ ∃ p, (p ∉ d)
         ∧ log r.2 = [TempCreated p; Call OpSave; Failed OpSave e]
         ∧ disk r.2 = {[p]} ∪ d.
Proof.
  intros Haudio Hsave. cbv zeta.
  apply (run_wp _ d (λ out st',
    out = Raise e
    ∧ ∃ p, (p ∉ d)
           ∧ log st' = [TempCreated p; Call OpSave; Failed OpSave e]
           ∧ disk st' = {[p]} ∪ d)).
  unfold analyze_pitch. rewrite Haudio, Hsave.
  repeat wp_step; try congruence.
  match goal with H : Some _ = Some _ |- _ => injection H as -> end.
  split; [reflexivity|]. eauto.
Qed.

(** X26: in [text_to_speech] the variable [speech_file_path] is first
    assigned inside the [try] block; when building the client fails,
    the [finally] block reads it unassigned and its exception replaces
    the 500 answer. *)
Lemma text_to_speech_client_failure env request d e :
  truthy (get_json request !! "text") = true →
  truthy (get_json request !! "api_key") = true →
  env_openai env = Some e →
  let r := run (text_to_speech env request) d in
  (∃ msg, r.1 = Raise (mkExn "UnboundLocalError" msg))
  ∧ log r.2 = [Call OpOpenAI; Failed OpOpenAI e]
  ∧ disk r.2 = d.
Proof.
  intros Htext Hkey Hclient. cbv zeta.
  apply (run_wp _ d (λ out st',
    (∃ msg, out = Raise (mkExn "UnboundLocalError" msg))
    ∧ log st' = [Call OpOpenAI; Failed OpOpenAI e]
    ∧ disk st' = d)).
  unfold text_to_speech. rewrite Htext, Hkey, Hclient. simpl negb.
  repeat wp_step; try congruence.
  match goal with H : Some _ = Some _ |- _ => injection H as -> end.
  split; [by eauto|]. done.
Qed.

(** C3: every temporary file of a request is gone when the handler
    returns, on every way out.  Not so when storing the upload fails in
    the alignment endpoint: the request is answered with 500 and the
    temporary file 1, created for it, is still on the disk. *)
Theorem C3_temp_file_left_when_save_fails :
  let r := run (forced_alignment_endpoint env_save_fails MMS_FA_dict
                  MMS_FA_labels (upload 1000 "hello")) ∅ in
  r.1 = Ret (jsonify_error
               "Internal server error: [Errno 28] No space left on device" 500)
  ∧ log r.2 = [TempCreated 1%positive; Call OpSave;
               Failed OpSave
                 (mkExn "OSError" "[Errno 28] No space left on device")]
  ∧ elements (disk r.2) = [1%positive].
Proof. vm_compute. repeat split; reflexivity. Qed.

(** ** Processing failures *)









(** * Further properties of the code *)

(** ** More on tokenisation *)

(** X1: the tokens are the vocabulary indices of the characters of the
    lower-cased transcript that [str.split] does not treat as
    separators; a separator yields no token even when the vocabulary
    has an entry for it. *)
Theorem tokens_of_drops_whitespace (DICT_NO_STAR : gmap ascii Z)
    (transcript : list ascii) :
  tokens_of DICT_NO_STAR transcript =
  omap (λ char, DICT_NO_STAR !! char)
    (filter (λ c, Py.isspace c = false) (Py.lower transcript)).
Proof. apply tokens_of_filter. Qed.

(** X2: the tokens of a concatenation are the tokens of its parts, one
    after the other: where the words begin and end plays no role. *)
Theorem tokens_of_app (DICT_NO_STAR : gmap ascii Z) (s1 s2 : list ascii) :
  tokens_of DICT_NO_STAR (s1 ++ s2)%list =
  (tokens_of DICT_NO_STAR s1 ++ tokens_of DICT_NO_STAR s2)%list.
Proof.
  rewrite !tokens_of_filter. unfold Py.lower.
  by rewrite fmap_app, filter_app, omap_app.
Qed.

(** X3: a transcript has no token, and [forced_align_waveform] raises
    its [ValueError], exactly when every character of the lower-cased
    transcript is a separator or is outside the vocabulary. *)
Theorem tokens_of_nil_iff (DICT_NO_STAR : gmap ascii Z)
    (transcript : list ascii) :
  tokens_of DICT_NO_STAR transcript = [] ↔
  ∀ c, c ∈ Py.lower transcript →
       Py.isspace c = true ∨ DICT_NO_STAR !! c = None.
Proof.
  rewrite tokens_of_filter. generalize (Py.lower transcript). intros s.
  induction s as [|c s IH].
  - split; [|done]. intros _ c Hc. by apply elem_of_nil in Hc.
  - destruct (Py.isspace c) eqn:Hc.
    + rewrite filter_cons_False by congruence. rewrite IH. split.
      * intros H c' [->|Hin]%elem_of_cons; [by left|by apply H].
      * intros H c' Hin. apply H. by right.
    + rewrite filter_cons_True by done. csimpl.
      destruct (DICT_NO_STAR !! c) as [i|] eqn:Hi.
      * split; [done|]. intros H.
        destruct (H c) as [?|?]; [by left|congruence|congruence].
      * rewrite IH. split.
        -- intros H c' [->|Hin]%elem_of_cons; [by right|by apply H].
        -- intros H c' Hin. apply H. by right.
Qed.

(** ** More on the pitch contour *)

(** X4: the pitch array keeps the order of the library's pairs and
    holds at most as many entries as the shorter of the two arrays:
    [zip] drops what one array has beyond the other. *)
Theorem voiced_truncates (time_stamps pitch_values : list float) :
  sublist (voiced time_stamps pitch_values) (zip time_stamps pitch_values)
  ∧ (length (voiced time_stamps pitch_values)
     ≤ min (length time_stamps) (length pitch_values))%nat.
Proof.
  unfold voiced. split; [apply sublist_filter|].
  rewrite <- length_zip. apply length_filter.
Qed.

(** ** The alignment list *)

Lemma alignment_list_run labels spans st :
  (∃ entries, alignment_list labels spans st = (Ret entries, st)
              ∧ Forall2 (entry_of labels) spans entries)
  ∨ (alignment_list labels spans st
     = (Raise (mkExn "IndexError" "tuple index out of range"), st)
     ∧ Exists (λ span, py_index labels (span_token span) = None) spans).
Proof.
  induction spans as [|span spans IH].
  - left. exists []. split; [reflexivity|constructor].
  - simpl. unfold mbind, M_bind, alignment_entry.
    destruct (py_index labels (span_token span)) as [label|] eqn:Hlabel;
      unfold mret, M_ret; simpl.
    + destruct IH as [(entries & Heq & Hall)|[Heq Hex]]; rewrite Heq.
      * left. eexists. split; [reflexivity|].
        constructor; [|done]. by repeat split.
      * right. split; [reflexivity|]. by apply Exists_cons_tl.
    + right. split; [reflexivity|]. by apply Exists_cons_hd.
Qed.

(** X5: the alignment list has one entry per span, in order, with the
    span's frames and score and the label at the span's token; when a
    token is no index of the labels, no list is built and an
    [IndexError] is raised.  Files, locals and log are not touched. *)
Theorem alignment_list_spec (labels : list string) (spans : list TokenSpan)
    (st : State) :
  (alignment_list labels spans st).2 = st
  ∧ match (alignment_list labels spans st).1 with
    | Ret entries => Forall2 (entry_of labels) spans entries
    | Raise e =>
        e = mkExn "IndexError" "tuple index out of range"
        ∧ Exists (λ span, py_index labels (span_token span) = None) spans
    end.
Proof.
  destruct (alignment_list_run labels spans st)
    as [(entries & -> & Hall)|[-> Hex]]; by split.
Qed.

Lemma wp_alignment_list_entries labels spans
    (Q : Outcome (list AlignEntry) → State → Prop) st :
  (∀ entries, Forall2 (entry_of labels) spans entries → Q (Ret entries) st) →
  (Exists (λ span, py_index labels (span_token span) = None) spans →
   Q (Raise (mkExn "IndexError" "tuple index out of range")) st) →
  wp (alignment_list labels spans) Q st.
Proof.
  intros Hret Hraise. unfold wp.
  destruct (alignment_list_run labels spans st)
    as [(entries & -> & Hall)|[-> Hex]]; simpl; auto.
Qed.

Ltac wp_step_entries :=
  lazymatch goal with
  | |- wp (alignment_list _ _) _ _ =>
      apply wp_alignment_list_entries; [intros ? ?|intros ?]
  | |- _ => wp_step
  end.

(** Membership of a call in a log, by computation. *)
Lemma called_spec o events : Call o ∈ events ↔ called o events = true.
Proof.
  unfold called. rewrite existsb_exists. split.
  - intros Hin. exists (Call o). split; [by apply list_elem_of_In|].
    simpl. by apply bool_decide_eq_true.
  - intros (ev & Hin%list_elem_of_In & Hev).
    destruct ev as [o'| | |]; try discriminate Hev.
    simpl in Hev. apply bool_decide_eq_true in Hev. by subst o'.
Qed.

Ltac compute_called :=
  rewrite ?called_spec;
  repeat match goal with
         | |- context [called ?o ?l] =>
             let b := eval vm_compute in (called o l) in
             change (called o l) with b
         end.

Ltac called_facts :=
  compute_called; repeat split; intros; first [ congruence | by eauto ].

(** ** [forced_align_waveform] on its own *)

(** X6: whatever happens, [forced_align_waveform] leaves the set of
    files as it found it: the converted file it creates is removed on
    return and on every exception. *)
Theorem forced_align_waveform_cleans_up (env : Env)
    (DICT_NO_STAR : gmap ascii Z) (LABELS_NO_STAR : list string)
    (wav_path : Path) (transcript : string) (st : State) :
  disk (forced_align_waveform env DICT_NO_STAR LABELS_NO_STAR wav_path
          transcript st).2 = disk st.
Proof.
  change (wp (forced_align_waveform env DICT_NO_STAR LABELS_NO_STAR wav_path
                transcript) (λ _ st', disk st' = disk st) st).
  repeat wp_step; try congruence; only_files; set_solver.
Qed.

(** X7: every exception that leaves [forced_align_waveform] is a
    [RuntimeError] whose message starts with "Failed during forced
    alignment: ", whatever was raised inside. *)
Theorem forced_align_waveform_raises_RuntimeError (env : Env)
    (DICT_NO_STAR : gmap ascii Z) (LABELS_NO_STAR : list string)
    (wav_path : Path) (transcript : string) (st : State) (e : Exn)
    (Hraise : (forced_align_waveform env DICT_NO_STAR LABELS_NO_STAR wav_path
                 transcript st).1 = Raise e) :
  exn_class e = "RuntimeError"
  ∧ ∃ msg, exn_msg e = "Failed during forced alignment: " ++ msg.
Proof.
  revert e Hraise.
  change (wp (forced_align_waveform env DICT_NO_STAR LABELS_NO_STAR wav_path
                transcript)
            (λ out _, ∀ e, out = Raise e →
               exn_class e = "RuntimeError"
               ∧ ∃ msg, exn_msg e = "Failed during forced alignment: " ++ msg)
            st).
  repeat wp_step; intros e' He'; try discriminate He';
    injection He' as <-; (split; [reflexivity|by eexists]).
Qed.

Lemma forced_align_waveform_raises_RuntimeError_witness :
  (forced_align_waveform env_ffmpeg_fails MMS_FA_dict MMS_FA_labels
     1%positive "hello" (mkState ∅ ∅ [])).1
  = Raise (mkExn "RuntimeError"
             "Failed during forced alignment: ffmpeg conversion failed: Command returned non-zero exit status 1.")
  ∧ (exn_class
       (mkExn "RuntimeError"
          "Failed during forced alignment: ffmpeg conversion failed: Command returned non-zero exit status 1.")
     = "RuntimeError"
     ∧ ∃ msg,
         exn_msg
           (mkExn "RuntimeError"
              "Failed during forced alignment: ffmpeg conversion failed: Command returned non-zero exit status 1.")
         = "Failed during forced alignment: " ++ msg).
Proof.
  split; [vm_compute; reflexivity|].
  apply (forced_align_waveform_raises_RuntimeError env_ffmpeg_fails
           MMS_FA_dict MMS_FA_labels 1%positive "hello" (mkState ∅ ∅ [])).
  vm_compute. reflexivity.
Defined.

(** ** The alignment endpoint as a whole *)

(** X8: [forced_alignment_endpoint] always answers: no exception
    leaves it, and the status is 200, 400 or 500. *)
Theorem forced_alignment_always_answers (env : Env)
    (DICT_NO_STAR : gmap ascii Z) (LABELS_NO_STAR : list string)
    (request : Request) (d : gset Path) :
  ∃ resp,
    (run (forced_alignment_endpoint env DICT_NO_STAR LABELS_NO_STAR request)
       d).1 = Ret resp
    ∧ (status resp = 200 ∨ status resp = 400 ∨ status resp = 500).
Proof.
  apply (run_wp _ d (λ out _, ∃ resp,
    out = Ret resp
    ∧ (status resp = 200 ∨ status resp = 400 ∨ status resp = 500))).
  unfold forced_alignment_endpoint.
  repeat wp_step; eexists; (split; [reflexivity|simpl; auto]).
Qed.

(** X9: with both fields present, the answer is "Audio file too large"
    exactly when the upload has more than 10 * 1024 * 1024 bytes; an
    upload of exactly that size is accepted. *)
Theorem forced_alignment_size_limit (env : Env)
    (DICT_NO_STAR : gmap ascii Z) (LABELS_NO_STAR : list string)
    (request : Request) (d : gset Path) (audio_file : FileStorage)
    (transcript : string)
    (Haudio : files request !! "audio" = Some audio_file)
    (Htranscript : form request !! "transcript" = Some transcript) :
  (run (forced_alignment_endpoint env DICT_NO_STAR LABELS_NO_STAR request)
     d).1 = Ret (jsonify_error "Audio file too large" 400)
  ↔ content_length audio_file > 10 * 1024 * 1024.
Proof.
  destruct (decide (content_length audio_file > MAX_AUDIO_FILE_SIZE))
    as [Hbig|Hsmall].
  - split; [done|]. intros _.
    apply (run_wp _ d (λ out _,
      out = Ret (jsonify_error "Audio file too large" 400))).
    unfold forced_alignment_endpoint. rewrite Haudio, Htranscript.
    rewrite (bool_decide_eq_true_2 _ Hbig).
    by repeat wp_step.
  - split; [|done]. revert Hsmall.
    change (content_length audio_file > 10 * 1024 * 1024)
      with (content_length audio_file > MAX_AUDIO_FILE_SIZE).
    intros Hsmall Hresp. exfalso. revert Hresp.
    apply (run_wp _ d (λ out _,
      out ≠ Ret (jsonify_error "Audio file too large" 400))).
    unfold forced_alignment_endpoint. rewrite Haudio, Htranscript.
    rewrite (bool_decide_eq_false_2 _ Hsmall).
    repeat wp_step; discriminate.
Qed.

Lemma forced_alignment_size_limit_witness :
  files (upload (10 * 1024 * 1024) "hello") !! "audio"
    = Some {| content_length := 10 * 1024 * 1024 |}
  ∧ form (upload (10 * 1024 * 1024) "hello") !! "transcript" = Some "hello"
  ∧ ((run (forced_alignment_endpoint env_all_fine MMS_FA_dict MMS_FA_labels
             (upload (10 * 1024 * 1024) "hello")) ∅).1
       = Ret (jsonify_error "Audio file too large" 400)
     ↔ content_length {| content_length := 10 * 1024 * 1024 |}
       > 10 * 1024 * 1024).
Proof.
  split; [reflexivity|]. split; [reflexivity|].
  apply (forced_alignment_size_limit env_all_fine MMS_FA_dict MMS_FA_labels
           (upload (10 * 1024 * 1024) "hello") ∅
           {| content_length := 10 * 1024 * 1024 |} "hello");
    reflexivity.
Defined.

(** X10: an alignment request with the [audio] field and without the
    [transcript] field is answered 400 "No transcript text provided";
    nothing was done for it. *)
Theorem forced_alignment_missing_transcript (env : Env)
    (DICT_NO_STAR : gmap ascii Z) (LABELS_NO_STAR : list string)
    (request : Request) (d : gset Path) (audio_file : FileStorage)
    (Haudio : files request !! "audio" = Some audio_file)
    (Htranscript : form request !! "transcript" = None) :
  let r :=
    run (forced_alignment_endpoint env DICT_NO_STAR LABELS_NO_STAR request) d in
  r.1 = Ret (jsonify_error "No transcript text provided" 400)
  ∧ disk r.2 = d ∧ log r.2 = [].
Proof.
  cbv zeta.
  apply (run_wp _ d (λ out st',
    out = Ret (jsonify_error "No transcript text provided" 400)
    ∧ disk st' = d ∧ log st' = [])).
  unfold forced_alignment_endpoint. rewrite Haudio, Htranscript.
  by repeat wp_step.
Qed.

Lemma forced_alignment_missing_transcript_witness :
  files upload_without_transcript !! "audio"
    = Some {| content_length := 1000 |}
  ∧ form upload_without_transcript !! "transcript" = None
  ∧ (let r := run (forced_alignment_endpoint env_all_fine MMS_FA_dict
                     MMS_FA_labels upload_without_transcript) ∅ in
     r.1 = Ret (jsonify_error "No transcript text provided" 400)
     ∧ disk r.2 = ∅ ∧ log r.2 = []).
Proof.
  split; [reflexivity|]. split; [reflexivity|].
  apply (forced_alignment_missing_transcript env_all_fine MMS_FA_dict
           MMS_FA_labels upload_without_transcript ∅
           {| content_length := 1000 |});
    reflexivity.
Defined.

(** X11: a 200 answer of the alignment endpoint comes from a request
    with both fields, an upload within the limit and a transcript with
    at least one token, and its array is the list of the spans that
    [F.merge_tokens] gave for these tokens, entry by entry. *)
Theorem forced_alignment_success (env : Env)
    (DICT_NO_STAR : gmap ascii Z) (LABELS_NO_STAR : list string)
    (request : Request) (d : gset Path) (alignment : list AlignEntry)
    (Hok : (run (forced_alignment_endpoint env DICT_NO_STAR LABELS_NO_STAR
                   request) d).1
           = Ret (mkResponse 200 (JsonAlignment alignment))) :
  ∃ audio_file transcript spans,
    files request !! "audio" = Some audio_file
    ∧ form request !! "transcript" = Some transcript
    ∧ (content_length audio_file <= 10 * 1024 * 1024)%Z
    ∧ tokens_of DICT_NO_STAR (chars transcript) ≠ []
    ∧ env_merge_tokens env (tokens_of DICT_NO_STAR (chars transcript))
      = inr spans
    ∧ Forall2 (entry_of LABELS_NO_STAR) spans alignment.
Proof.
  revert alignment Hok.
  apply (run_wp _ d (λ out _, ∀ alignment,
    out = Ret (mkResponse 200 (JsonAlignment alignment)) →
    ∃ audio_file transcript spans,
      files request !! "audio" = Some audio_file
      ∧ form request !! "transcript" = Some transcript
      ∧ (content_length audio_file <= 10 * 1024 * 1024)%Z
      ∧ tokens_of DICT_NO_STAR (chars transcript) ≠ []
      ∧ env_merge_tokens env (tokens_of DICT_NO_STAR (chars transcript))
        = inr spans
      ∧ Forall2 (entry_of LABELS_NO_STAR) spans alignment)).
  unfold forced_alignment_endpoint.
  repeat wp_step_entries; intros alignment Hres; try discriminate Hres.
  all: injection Hres as <-.
  all: match goal with
       | H : bool_decide (_ > MAX_AUDIO_FILE_SIZE) = false |- _ =>
           apply bool_decide_eq_false in H; unfold MAX_AUDIO_FILE_SIZE in H
       end.
  all: do 3 eexists; repeat split; try reflexivity.
  all: try match goal with
           | H : tokens_of _ _ = _ |- _ => rewrite H
           end.
  all: first [ done | lia | eassumption ].
Qed.

Lemma forced_alignment_success_witness :
  (run (forced_alignment_endpoint env_all_fine MMS_FA_dict MMS_FA_labels
          (upload 1000 "hello")) ∅).1
  = Ret (mkResponse 200
           (JsonAlignment
              [ {| token := "h"; start_frame := 3; end_frame := 5;
                   score := Finite (9#10) |} ]))
  ∧ ∃ audio_file transcript spans,
      files (upload 1000 "hello") !! "audio" = Some audio_file
      ∧ form (upload 1000 "hello") !! "transcript" = Some transcript
      ∧ (content_length audio_file <= 10 * 1024 * 1024)%Z
      ∧ tokens_of MMS_FA_dict (chars transcript) ≠ []
      ∧ env_merge_tokens env_all_fine (tokens_of MMS_FA_dict (chars transcript))
        = inr spans
      ∧ Forall2 (entry_of MMS_FA_labels) spans
          [ {| token := "h"; start_frame := 3; end_frame := 5;
               score := Finite (9#10) |} ].
Proof.
  split; [vm_compute; reflexivity|].
  apply (forced_alignment_success env_all_fine MMS_FA_dict MMS_FA_labels
           (upload 1000 "hello") ∅).
  vm_compute. reflexivity.
Defined.

(** X12: the steps of an alignment run in order, each only when the
    one before it succeeded: ffmpeg after the upload was stored,
    [sf.read] after ffmpeg succeeded, the model after the audio was
    read, [F.forced_align] after the model returned, and
    [F.merge_tokens] after [F.forced_align] was called. *)
Theorem forced_alignment_call_order (env : Env)
    (DICT_NO_STAR : gmap ascii Z) (LABELS_NO_STAR : list string)
    (request : Request) (d : gset Path) :
  let events :=
    log (run (forced_alignment_endpoint env DICT_NO_STAR LABELS_NO_STAR
                request) d).2 in
  (Call OpFfmpeg ∈ events → env_save env = None)
  ∧ (Call OpSfRead ∈ events → env_ffmpeg env = None)
  ∧ (Call OpModel ∈ events →
     env_sf_open env = None ∧ ∃ sr, env_sf_read env = inr sr)
  ∧ (Call OpForcedAlign ∈ events →
     env_model env = None ∧ Call OpModel ∈ events)
  ∧ (Call OpMergeTokens ∈ events → Call OpForcedAlign ∈ events).
Proof.
  cbv zeta.
  apply (run_wp _ d (λ _ st',
    (Call OpFfmpeg ∈ log st' → env_save env = None)
    ∧ (Call OpSfRead ∈ log st' → env_ffmpeg env = None)
    ∧ (Call OpModel ∈ log st' →
       env_sf_open env = None ∧ ∃ sr, env_sf_read env = inr sr)
    ∧ (Call OpForcedAlign ∈ log st' →
       env_model env = None ∧ Call OpModel ∈ log st')
    ∧ (Call OpMergeTokens ∈ log st' → Call OpForcedAlign ∈ log st'))).
  unfold forced_alignment_endpoint.
  repeat wp_step.
  all: called_facts.
Qed.

(** X13: the waveform is resampled only when [sf.read] gave a sample
    rate other than the one of the bundle. *)
Theorem forced_alignment_resamples_when_needed (env : Env)
    (DICT_NO_STAR : gmap ascii Z) (LABELS_NO_STAR : list string)
    (request : Request) (d : gset Path)
    (Hresample :
       Call OpResample
       ∈ log (run (forced_alignment_endpoint env DICT_NO_STAR LABELS_NO_STAR
                     request) d).2) :
  ∃ sr, env_sf_read env = inr sr ∧ sr ≠ bundle_sample_rate env.
Proof.
  revert Hresample.
  apply (run_wp _ d (λ _ st',
    Call OpResample ∈ log st' →
    ∃ sr, env_sf_read env = inr sr ∧ sr ≠ bundle_sample_rate env)).
  unfold forced_alignment_endpoint.
  repeat wp_step.
  all: try match goal with
           | H : bool_decide (_ ≠ _) = true |- _ =>
               apply bool_decide_eq_true in H
           end.
  all: called_facts.
Qed.

Lemma forced_alignment_resamples_when_needed_witness :
  Call OpResample
  ∈ log (run (forced_alignment_endpoint env_needs_resample MMS_FA_dict
                MMS_FA_labels (upload 1000 "hello")) ∅).2
  ∧ ∃ sr, env_sf_read env_needs_resample = inr sr
          ∧ sr ≠ bundle_sample_rate env_needs_resample.
Proof.
  assert (Hin :
    Call OpResample
    ∈ log (run (forced_alignment_endpoint env_needs_resample MMS_FA_dict
                  MMS_FA_labels (upload 1000 "hello")) ∅).2).
  { vm_compute. in_log. }
  split; [exact Hin|].
  exact (forced_alignment_resamples_when_needed env_needs_resample
           MMS_FA_dict MMS_FA_labels (upload 1000 "hello") ∅ Hin).
Defined.

(** X14: when ffmpeg fails on a stored upload, the answer is the 500
    envelope with the message of the failure behind the prefixes of
    the endpoint and of [forced_align_waveform], and behind "ffmpeg
    conversion failed: " when ffmpeg exited with a non-zero status
    ([CalledProcessError]); both temporary files are gone and neither
    [sf.read] nor the model is called. *)
Theorem forced_alignment_ffmpeg_failure (env : Env)
    (DICT_NO_STAR : gmap ascii Z) (LABELS_NO_STAR : list string)
    (request : Request) (d : gset Path) (audio_file : FileStorage)
    (transcript : string) (e : Exn)
    (Haudio : files request !! "audio" = Some audio_file)
    (Htranscript : form request !! "transcript" = Some transcript)
    (Hsize : (content_length audio_file <= 10 * 1024 * 1024)%Z)
    (Hsave : env_save env = None)
    (Hffmpeg : env_ffmpeg env = Some e) :
  let r :=
    run (forced_alignment_endpoint env DICT_NO_STAR LABELS_NO_STAR request) d in
  r.1 = Ret (jsonify_error
               ("Internal server error: Failed during forced alignment: "
                ++ (if String.eqb (exn_class e) "CalledProcessError"
                    then "ffmpeg conversion failed: " ++ exn_msg e
                    else exn_msg e)) 500)
  ∧ disk r.2 = d
  ∧ (Call OpSfRead ∉ log r.2) ∧ (Call OpModel ∉ log r.2).
Proof.
  cbv zeta.
  apply (run_wp _ d (λ out st',
    out = Ret (jsonify_error
                 ("Internal server error: Failed during forced alignment: "
                  ++ (if String.eqb (exn_class e) "CalledProcessError"
                      then "ffmpeg conversion failed: " ++ exn_msg e
                      else exn_msg e)) 500)
    ∧ disk st' = d
    ∧ (Call OpSfRead ∉ log st') ∧ (Call OpModel ∉ log st'))).
  unfold forced_alignment_endpoint, forced_align_waveform, convert_to_pcm_wav.
  rewrite Haudio, Htranscript, Hsave, Hffmpeg.
  rewrite (bool_decide_eq_false_2
             (content_length audio_file > MAX_AUDIO_FILE_SIZE))
    by (unfold MAX_AUDIO_FILE_SIZE; lia).
  repeat wp_step; try congruence.
  all: match goal with
       | H : Some _ = Some _ |- _ => injection H as <-
       end.
  all: split; [reflexivity|].
  all: split; [only_files; set_solver|].
  all: compute_called; split; congruence.
Qed.

Lemma forced_alignment_ffmpeg_failure_witness :
  files (upload 1000 "hello") !! "audio" = Some {| content_length := 1000 |}
  ∧ form (upload 1000 "hello") !! "transcript" = Some "hello"
  ∧ (content_length {| content_length := 1000 |} <= 10 * 1024 * 1024)%Z
  ∧ env_save env_ffmpeg_fails = None
  ∧ env_ffmpeg env_ffmpeg_fails
    = Some (mkExn "CalledProcessError"
              "Command returned non-zero exit status 1.")
  ∧ (let r := run (forced_alignment_endpoint env_ffmpeg_fails MMS_FA_dict
                     MMS_FA_labels (upload 1000 "hello")) ∅ in
     r.1 = Ret (jsonify_error
                  ("Internal server error: Failed during forced alignment: "
                   ++ (if String.eqb
                            (exn_class
                               (mkExn "CalledProcessError"
                                  "Command returned non-zero exit status 1."))
                            "CalledProcessError"
                       then "ffmpeg conversion failed: "
                            ++ exn_msg
                                 (mkExn "CalledProcessError"
                                    "Command returned non-zero exit status 1.")
                       else exn_msg
                              (mkExn "CalledProcessError"
                                 "Command returned non-zero exit status 1.")))
                  500)
     ∧ disk r.2 = ∅
     ∧ (Call OpSfRead ∉ log r.2) ∧ (Call OpModel ∉ log r.2)).
Proof.
  split; [reflexivity|]. split; [reflexivity|].
  split; [vm_compute; discriminate|].
  split; [reflexivity|]. split; [reflexivity|].
  apply (forced_alignment_ffmpeg_failure env_ffmpeg_fails MMS_FA_dict
           MMS_FA_labels (upload 1000 "hello") ∅ {| content_length := 1000 |}
           "hello"
           (mkExn "CalledProcessError"
              "Command returned non-zero exit status 1.")).
  - reflexivity.
  - reflexivity.
  - vm_compute. discriminate.
  - reflexivity.
  - reflexivity.
Defined.

(** X15: the alignment endpoint sees the transcript only through its
    tokens: two requests with the same upload whose transcripts have
    the same tokens (say, in another case or with other spacing) are
    answered alike, with the same files and the same log. *)
Theorem forced_alignment_tokens_only (env : Env)
    (DICT_NO_STAR : gmap ascii Z) (LABELS_NO_STAR : list string)
    (request1 request2 : Request) (d : gset Path)
    (transcript1 transcript2 : string)
    (Hfiles : files request1 !! "audio" = files request2 !! "audio")
    (Htranscript1 : form request1 !! "transcript" = Some transcript1)
    (Htranscript2 : form request2 !! "transcript" = Some transcript2)
    (Htokens : tokens_of DICT_NO_STAR (chars transcript1)
               = tokens_of DICT_NO_STAR (chars transcript2)) :
  run (forced_alignment_endpoint env DICT_NO_STAR LABELS_NO_STAR request1) d
  = run (forced_alignment_endpoint env DICT_NO_STAR LABELS_NO_STAR request2) d.
Proof.
  unfold forced_alignment_endpoint, forced_align_waveform.
  rewrite Hfiles, Htranscript1, Htranscript2. cbv zeta.
  rewrite Htokens. reflexivity.
Qed.

Lemma forced_alignment_tokens_only_witness :
  files (upload 1000 "Hello World") !! "audio"
    = files (upload 1000 "helloworld") !! "audio"
  ∧ form (upload 1000 "Hello World") !! "transcript" = Some "Hello World"
  ∧ form (upload 1000 "helloworld") !! "transcript" = Some "helloworld"
  ∧ tokens_of MMS_FA_dict (chars "Hello World")
    = tokens_of MMS_FA_dict (chars "helloworld")
  ∧ run (forced_alignment_endpoint env_all_fine MMS_FA_dict MMS_FA_labels
           (upload 1000 "Hello World")) ∅
    = run (forced_alignment_endpoint env_all_fine MMS_FA_dict MMS_FA_labels
             (upload 1000 "helloworld")) ∅.
Proof.
  split; [reflexivity|]. split; [reflexivity|]. split; [reflexivity|].
  split; [vm_compute; reflexivity|].
  apply (forced_alignment_tokens_only env_all_fine MMS_FA_dict MMS_FA_labels
           (upload 1000 "Hello World") (upload 1000 "helloworld") ∅
           "Hello World" "helloworld").
  - reflexivity.
  - reflexivity.
  - reflexivity.
  - vm_compute. reflexivity.
Defined.

Lemma forced_alignment_save_failure_witness :
  files (upload 1000 "hello") !! "audio" = Some {| content_length := 1000 |}
  ∧ form (upload 1000 "hello") !! "transcript" = Some "hello"
  ∧ (content_length {| content_length := 1000 |} <= 10 * 1024 * 1024)%Z
  ∧ env_save env_save_fails
    = Some (mkExn "OSError" "[Errno 28] No space left on device")
  ∧ (let r := run (forced_alignment_endpoint env_save_fails MMS_FA_dict
                     MMS_FA_labels (upload 1000 "hello")) ∅ in
     r.1 = Ret (jsonify_error
                  ("Internal server error: "
                   ++ exn_msg
                        (mkExn "OSError" "[Errno 28] No space left on device"))
                  500)
     ∧ ∃ p, (p ∉ (∅ : gset Path))
            ∧ log r.2
              = [TempCreated p; Call OpSave;
                 Failed OpSave
                   (mkExn "OSError" "[Errno 28] No space left on device")]
            ∧ disk r.2 = {[p]} ∪ ∅).
Proof.
  split; [reflexivity|]. split; [reflexivity|].
  split; [vm_compute; discriminate|]. split; [reflexivity|].
  apply (forced_alignment_save_failure env_save_fails MMS_FA_dict
           MMS_FA_labels (upload 1000 "hello") ∅ {| content_length := 1000 |}
           "hello" (mkExn "OSError" "[Errno 28] No space left on device")).
  - reflexivity.
  - reflexivity.
  - vm_compute. discriminate.
  - reflexivity.
Defined.

Lemma temp_files_removed_witness :
  env_save env_ffmpeg_fails = None
  ∧ disk (run (dispatch env_ffmpeg_fails MMS_FA_dict MMS_FA_labels
                 (upload 1000 "hello") ApiForcedAlignment) ∅).2 = ∅.
Proof.
  split; [reflexivity|].
  apply (temp_files_removed env_ffmpeg_fails MMS_FA_dict MMS_FA_labels
           (upload 1000 "hello") ApiForcedAlignment ∅).
  reflexivity.
Defined.

(** ** The pitch endpoint as a whole *)


Lemma voiced_unvoiced (time_stamps pitch_values : list float) :
  Forall (λ f, float_gt0 f = false) pitch_values →
  voiced time_stamps pitch_values = [].
Proof.
  unfold voiced. intros Hall. revert time_stamps.
  induction Hall as [|f fs Hf Hall IH]; intros [|t ts]; try done.
  simpl zip. rewrite filter_cons_False by (simpl; congruence). apply IH.
Qed.

(** X19: audio without a voiced frame (no frequency above 0) is no
    error: the answer is 200 with an empty array, and the temporary
    file is gone. *)
Theorem analyze_pitch_unvoiced_audio (env : Env) (request : Request)
    (d : gset Path) (audio_file : FileStorage)
    (time_stamps pitch_values : list float)
    (Haudio : files request !! "audio" = Some audio_file)
    (Hsave : env_save env = None)
    (Hpitch : env_parselmouth env = inr (time_stamps, pitch_values))
    (Hunvoiced : Forall (λ f, float_gt0 f = false) pitch_values) :
  let r := run (analyze_pitch env request) d in
  r.1 = Ret (mkResponse 200 (JsonPitch [])) ∧ disk r.2 = d.
Proof.
  cbv zeta.
  apply (run_wp _ d (λ out st',
    out = Ret (mkResponse 200 (JsonPitch [])) ∧ disk st' = d)).
  unfold analyze_pitch. rewrite Haudio, Hsave, Hpitch.
  repeat wp_step; try congruence.
  all: rewrite voiced_unvoiced by done.
  all: split; [reflexivity|only_files; set_solver].
Qed.

Lemma analyze_pitch_unvoiced_audio_witness :
  files (upload 1000 "hello") !! "audio" = Some {| content_length := 1000 |}
  ∧ env_save env_unvoiced = None
  ∧ env_parselmouth env_unvoiced
    = inr ([Finite 0; Finite (1#100); Finite (2#100)],
           [Finite 0; Finite 0; Finite 0])
  ∧ Forall (λ f, float_gt0 f = false) [Finite 0; Finite 0; Finite 0]
  ∧ (let r := run (analyze_pitch env_unvoiced (upload 1000 "hello")) ∅ in
     r.1 = Ret (mkResponse 200 (JsonPitch [])) ∧ disk r.2 = ∅).
Proof.
  split; [reflexivity|]. split; [reflexivity|]. split; [reflexivity|].
  split; [repeat constructor|].
  apply (analyze_pitch_unvoiced_audio env_unvoiced (upload 1000 "hello") ∅
           {| content_length := 1000 |}
           [Finite 0; Finite (1#100); Finite (2#100)]
           [Finite 0; Finite 0; Finite 0]).
  - reflexivity.
  - reflexivity.
  - reflexivity.
  - repeat constructor.
Defined.

(** X20: when the pitch library fails on a stored upload, the answer
    is the 500 envelope with exactly the message of the exception, and
    the temporary file is gone. *)
Theorem analyze_pitch_library_failure (env : Env) (request : Request)
    (d : gset Path) (audio_file : FileStorage) (e : Exn)
    (Haudio : files request !! "audio" = Some audio_file)
    (Hsave : env_save env = None)
    (Hpitch : env_parselmouth env = inl e) :
  let r := run (analyze_pitch env request) d in
  r.1 = Ret (jsonify_error (exn_msg e) 500) ∧ disk r.2 = d.
Proof.
  cbv zeta.
  apply (run_wp _ d (λ out st',
    out = Ret (jsonify_error (exn_msg e) 500) ∧ disk st' = d)).
  unfold analyze_pitch. rewrite Haudio, Hsave, Hpitch.
  repeat wp_step; try congruence.
  all: match goal with H : inl _ = inl _ |- _ => injection H as <- end.
  all: split; [reflexivity|only_files; set_solver].
Qed.

Lemma analyze_pitch_library_failure_witness :
  files (upload 1000 "hello") !! "audio" = Some {| content_length := 1000 |}
  ∧ env_save env_ffmpeg_fails = None
  ∧ env_parselmouth env_ffmpeg_fails
    = inl (mkExn "PraatError" "Sound not read from sound file.")
  ∧ (let r := run (analyze_pitch env_ffmpeg_fails (upload 1000 "hello")) ∅ in
     r.1 = Ret (jsonify_error
                  (exn_msg (mkExn "PraatError" "Sound not read from sound file."))
                  500)
     ∧ disk r.2 = ∅).
Proof.
  split; [reflexivity|]. split; [reflexivity|]. split; [reflexivity|].
  apply (analyze_pitch_library_failure env_ffmpeg_fails (upload 1000 "hello")
           ∅ {| content_length := 1000 |}
           (mkExn "PraatError" "Sound not read from sound file."));
    reflexivity.
Defined.

Lemma analyze_pitch_save_failure_witness :
  files (upload 1000 "hello") !! "audio" = Some {| content_length := 1000 |}
  ∧ env_save env_save_fails
    = Some (mkExn "OSError" "[Errno 28] No space left on device")
  ∧ (let r := run (analyze_pitch env_save_fails (upload 1000 "hello")) ∅ in
     r.1 = Raise (mkExn "OSError" "[Errno 28] No space left on device")
     ∧ ∃ p, (p ∉ (∅ : gset Path))
            ∧ log r.2
              = [TempCreated p; Call OpSave;
                 Failed OpSave
                   (mkExn "OSError" "[Errno 28] No space left on device")]
            ∧ disk r.2 = {[p]} ∪ ∅).
Proof.
  split; [reflexivity|]. split; [reflexivity|].
  apply (analyze_pitch_save_failure env_save_fails (upload 1000 "hello") ∅
           {| content_length := 1000 |}
           (mkExn "OSError" "[Errno 28] No space left on device"));
    reflexivity.
Defined.

Lemma analyze_pitch_succeeds_witness :
  files (upload 1000 "hello") !! "audio" = Some {| content_length := 1000 |}
  ∧ env_save env_all_fine = None
  ∧ env_parselmouth env_all_fine
    = inr ([Finite 0; Finite (1#100); Finite (2#100)],
           [Finite 0; Finite 220; Finite (2205#10)])
  ∧ (run (analyze_pitch env_all_fine (upload 1000 "hello")) ∅).1
    = Ret (mkResponse 200
             (JsonPitch
                (voiced [Finite 0; Finite (1#100); Finite (2#100)]
                   [Finite 0; Finite 220; Finite (2205#10)]))).
Proof.
  split; [reflexivity|]. split; [reflexivity|]. split; [reflexivity|].
  apply (analyze_pitch_succeeds env_all_fine (upload 1000 "hello") ∅
           {| content_length := 1000 |}
           [Finite 0; Finite (1#100); Finite (2#100)]
           [Finite 0; Finite 220; Finite (2205#10)]);
    reflexivity.
Defined.

(** ** The speech endpoint as a whole *)


(** X24: a 200 answer of [text_to_speech] is the attachment
    "speech.mp3" of type "audio/mpeg" for a temporary file that the
    handler created, wrote through the speech API and has already
    removed when it returns. *)
Theorem text_to_speech_success (env : Env) (request : Request)
    (d : gset Path) (resp : Response)
    (Hok : (run (text_to_speech env request) d).1 = Ret resp)
    (Hstatus : status resp = 200) :
  ∃ p, resp = mkResponse 200 (Attachment p "speech.mp3" "audio/mpeg")
       ∧ (p ∉ disk (run (text_to_speech env request) d).2)
       ∧ log (run (text_to_speech env request) d).2
         = [Call OpOpenAI; TempCreated p; Call OpSpeechCreate;
            Call OpStreamToFile; Call OpSendFile; Removed p].
Proof.
  revert resp Hok Hstatus.
  apply (run_wp _ d (λ out st', ∀ resp,
    out = Ret resp → status resp = 200 →
    ∃ p, resp = mkResponse 200 (Attachment p "speech.mp3" "audio/mpeg")
         ∧ (p ∉ disk st')
         ∧ log st' = [Call OpOpenAI; TempCreated p; Call OpSpeechCreate;
                      Call OpStreamToFile; Call OpSendFile; Removed p])).
  unfold text_to_speech.
  repeat wp_step; intros resp Hresp Hstatus; try discriminate Hresp.
  all: injection Hresp as <-; try discriminate Hstatus.
  all: try (exfalso; only_files; set_solver).
  all: eexists; split; [reflexivity|]; (split; [only_files; set_solver|done]).
Qed.

Lemma text_to_speech_success_witness :
  (run (text_to_speech env_all_fine speech_request) ∅).1
  = Ret (mkResponse 200 (Attachment 1%positive "speech.mp3" "audio/mpeg"))
  ∧ status (mkResponse 200 (Attachment 1%positive "speech.mp3" "audio/mpeg"))
    = 200
  ∧ ∃ p, mkResponse 200 (Attachment 1%positive "speech.mp3" "audio/mpeg")
         = mkResponse 200 (Attachment p "speech.mp3" "audio/mpeg")
         ∧ (p ∉ disk (run (text_to_speech env_all_fine speech_request) ∅).2)
         ∧ log (run (text_to_speech env_all_fine speech_request) ∅).2
           = [Call OpOpenAI; TempCreated p; Call OpSpeechCreate;
              Call OpStreamToFile; Call OpSendFile; Removed p].
Proof.
  split; [vm_compute; reflexivity|]. split; [reflexivity|].
  apply (text_to_speech_success env_all_fine speech_request ∅
           (mkResponse 200 (Attachment 1%positive "speech.mp3" "audio/mpeg"))).
  - vm_compute. reflexivity.
  - reflexivity.
Defined.

(** X25: when the speech API fails, the answer is the 500 envelope
    with exactly the message of the exception; the temporary file,
    created before the API was called, is removed, and neither
    [stream_to_file] nor [send_file] is called. *)
Theorem text_to_speech_api_failure (env : Env) (request : Request)
    (d : gset Path) (e : Exn)
    (Htext : truthy (get_json request !! "text") = true)
    (Hkey : truthy (get_json request !! "api_key") = true)
    (Hclient : env_openai env = None)
    (Hcreate : env_speech_create env = Some e) :
  let r := run (text_to_speech env request) d in
  r.1 = Ret (jsonify_error (exn_msg e) 500)
  ∧ disk r.2 = d
  ∧ ∃ p, log r.2 = [Call OpOpenAI; TempCreated p; Call OpSpeechCreate;
                    Failed OpSpeechCreate e; Removed p].
Proof.
  cbv zeta.
  apply (run_wp _ d (λ out st',
    out = Ret (jsonify_error (exn_msg e) 500)
    ∧ disk st' = d
    ∧ ∃ p, log st' = [Call OpOpenAI; TempCreated p; Call OpSpeechCreate;
                      Failed OpSpeechCreate e; Removed p])).
  unfold text_to_speech. rewrite Htext, Hkey, Hclient, Hcreate. simpl negb.
  repeat wp_step; try congruence.
  all: match goal with H : Some _ = Some _ |- _ => injection H as <- end.
  all: try (exfalso; only_files; set_solver).
  all: split; [reflexivity|]; (split; [only_files; set_solver|by eexists]).
Qed.

Lemma text_to_speech_api_failure_witness :
  truthy (get_json speech_request !! "text") = true
  ∧ truthy (get_json speech_request !! "api_key") = true
  ∧ env_openai env_ffmpeg_fails = None
  ∧ env_speech_create env_ffmpeg_fails
    = Some (mkExn "APIConnectionError" "Connection error.")
  ∧ (let r := run (text_to_speech env_ffmpeg_fails speech_request) ∅ in
     r.1 = Ret (jsonify_error
                  (exn_msg (mkExn "APIConnectionError" "Connection error."))
                  500)
     ∧ disk r.2 = ∅
     ∧ ∃ p, log r.2
            = [Call OpOpenAI; TempCreated p; Call OpSpeechCreate;
               Failed OpSpeechCreate
                 (mkExn "APIConnectionError" "Connection error.");
               Removed p]).
Proof.
  split; [reflexivity|]. split; [reflexivity|]. split; [reflexivity|].
  split; [reflexivity|].
  apply (text_to_speech_api_failure env_ffmpeg_fails speech_request ∅
           (mkExn "APIConnectionError" "Connection error."));
    reflexivity.
Defined.

Lemma text_to_speech_client_failure_witness :
  truthy (get_json speech_request !! "text") = true
  ∧ truthy (get_json speech_request !! "api_key") = true
  ∧ env_openai env_client_fails
    = Some (mkExn "TypeError"
              "Client.__init__() got an unexpected keyword argument 'proxies'")
  ∧ (let r := run (text_to_speech env_client_fails speech_request) ∅ in
     (∃ msg, r.1 = Raise (mkExn "UnboundLocalError" msg))
     ∧ log r.2
       = [Call OpOpenAI;
          Failed OpOpenAI
            (mkExn "TypeError"
               "Client.__init__() got an unexpected keyword argument 'proxies'")]
     ∧ disk r.2 = ∅).
Proof.
  split; [reflexivity|]. split; [reflexivity|]. split; [reflexivity|].
  apply (text_to_speech_client_failure env_client_fails speech_request ∅
           (mkExn "TypeError"
              "Client.__init__() got an unexpected keyword argument 'proxies'"));
    reflexivity.
Defined.

(** ** The static front end *)

(** X27: [serve_react_app] always serves out of the static folder; it
    serves the requested path only when the path is not empty and
    exists under that folder, and "index.html" in every other case;
    asking for the name it served serves the same file again. *)
Theorem serve_react_app_fallback (os_path_exists : string → bool)
    (path : string) :
  let served := serve_react_app os_path_exists path in
  served.1 = static_folder
  ∧ ((served.2 = path ∧ path ≠ ""
      ∧ os_path_exists (os_path_join static_folder path) = true)
     ∨ served.2 = "index.html")
  ∧ serve_react_app os_path_exists served.2 = served.
Proof.
  cbv zeta. unfold serve_react_app.
  destruct (String.eqb path "") eqn:Hpath; simpl.
  - split; [done|]. split; [by right|].
    by destruct (os_path_exists (os_path_join static_folder "index.html")).
  - apply String.eqb_neq in Hpath.
    destruct (os_path_exists (os_path_join static_folder path)) eqn:Hex; simpl.
    + split; [done|]. split; [by left|].
      apply String.eqb_neq in Hpath. by rewrite Hpath, Hex.
    + split; [done|]. split; [by right|].
      by destruct (os_path_exists (os_path_join static_folder "index.html")).
Qed.
